(** * Excel service: workbook composition and template filling

    A shallow embedding of [ExcelService] (the [services/excelService.js]
    class of the Excel API) and the properties of its address arithmetic,
    style application, range and table writers, sheet formatting and
    template filler; with them the error-handling middleware
    ([middleware/errorHandler.js]) that answers for the errors the service
    throws.

    Modelling conventions.
    - A JavaScript string is a [string]; [charCodeAt] reads the code of a
      character and [String.fromCharCode] builds one.  Every code the
      service itself produces lies below 256.
    - A JavaScript number is an integer of [Z]; [%] is the truncating
      remainder [Z.rem]; a number is rendered in decimal ([pretty]).
    - Request data is JSON: [value].  An object is the list of its own
      properties in enumeration order; a property read looks at own
      properties only (inherited members are not part of the model).
    - A thrown exception is the [Threw] outcome of a computation in the
      state-and-exception monad [M]; the state a computation has reached
      when it throws is kept, as mutations of JavaScript objects are.
    - The workbook is an object of the exceljs library.  Its methods
      ([getCell], [eachRow], [eachCell], [insertRow], [columns],
      [addTable]) are embedded by what they do to the cells of a sheet;
      the comment of each says what is taken from the library. *)

From Stdlib Require Import ZArith Lia Bool.
From Stdlib Require Import Strings.Ascii Strings.String.
From stdpp Require Import base option list gmap strings pretty.

Local Open Scope Z_scope.

(** ** Characters and strings *)

Definition char_code (c : ascii) : Z := Z.of_N (Ascii.N_of_ascii c).

(** [String.fromCharCode(n)]: the code unit [n mod 2^16]. *)
Definition fromCharCode (n : Z) : ascii :=
  Ascii.ascii_of_N (Z.to_N (n mod 65536)).

(** [s.charCodeAt(0)]; [None] stands for [NaN] (the empty string). *)
Definition charCodeAt0 (s : string) : option Z :=
  match s with
  | EmptyString => None
  | String c _ => Some (char_code c)
  end.

Definition is_upper (c : ascii) : bool :=
  (65 <=? char_code c) && (char_code c <=? 90).

Definition is_lower (c : ascii) : bool :=
  (97 <=? char_code c) && (char_code c <=? 122).

Definition is_digit (c : ascii) : bool :=
  (48 <=? char_code c) && (char_code c <=? 57).

(** The class [\w] of the regular expressions: [[A-Za-z0-9_]]. *)
Definition is_word (c : ascii) : bool :=
  is_upper c || is_lower c || is_digit c || (char_code c =? 95).

(** The longest prefix of characters of a class, and what follows it. *)
Fixpoint span (p : ascii -> bool) (s : string) : string * string :=
  match s with
  | EmptyString => (EmptyString, EmptyString)
  | String c t =>
      if p c then let '(w, r) := span p t in (String c w, r)
      else (EmptyString, s)
  end.

(** [s.match(/[class]+/)[0]]: the first non-empty run of characters of
    the class; [None] when [match] returns [null]. *)
Fixpoint first_run (p : ascii -> bool) (s : string) : option string :=
  match s with
  | EmptyString => None
  | String c t => if p c then Some (fst (span p s)) else first_run p t
  end.

(** [s.split(':')[0]]. *)
Fixpoint before_colon (s : string) : string :=
  match s with
  | EmptyString => EmptyString
  | String c t => if Ascii.eqb c ":" then EmptyString else String c (before_colon t)
  end.

(** [parseInt] on a run of decimal digits, continuing from [acc]. *)
Definition digits_from (acc : Z) (s : string) : Z :=
  fold_left (fun acc c => acc * 10 + (char_code c - 48)) (list_ascii_of_string s) acc.

Definition digits_value (s : string) : Z := digits_from 0 s.

Definition all_chars (p : ascii -> bool) (s : string) : bool :=
  forallb p (list_ascii_of_string s).

(** The address pattern [[A-Z]+[0-9]+] of the data model. *)
Definition address_ok (s : string) : bool :=
  let '(letters, rest) := span is_upper s in
  negb (String.eqb letters EmptyString)
  && negb (String.eqb rest EmptyString)
  && all_chars is_digit rest.

(** ** Address resolver *)

(** Zero-based index of a column letter. *)
Definition col_index (c : ascii) : Z := char_code c - 65.

(** [getCellAddress(startCol, row, colOffset)]; every caller passes the
    offset.  With an empty [startCol] the code is [NaN], which stays [NaN]
    through the arithmetic and which [fromCharCode] turns into code 0. *)
Definition getCellAddress (startCol : string) (row : Z) (colOffset : Z) : string :=
  let colLetter :=
    match charCodeAt0 startCol with
    | Some code =>
        let colCode := code - 65 + colOffset in
        fromCharCode (65 + Z.rem colCode 26)
    | None => fromCharCode 0
    end in
  String colLetter (pretty row).


(** ** JSON values *)

#[local] Set Warnings "-register-all".

Inductive value : Type :=
| VUndef
| VNull
| VBool (b : bool)
| VNum (n : Z)
| VStr (s : string)
| VArr (items : list value)
| VObj (fields : list (string * value)).

(** Truthiness, as tested by [if (v)], [v || w] and [v ? a : b]. *)
Definition truthy (v : value) : bool :=
  match v with
  | VUndef | VNull => false
  | VBool b => b
  | VNum n => negb (n =? 0)
  | VStr s => negb (String.eqb s EmptyString)
  | VArr _ | VObj _ => true
  end.

(** [v || w]. *)
Definition js_or (v w : value) : value := if truthy v then v else w.

(** [Array.isArray(v)]. *)
Definition is_array (v : value) : bool :=
  match v with VArr _ => true | _ => false end.

Definition nullish (v : value) : bool :=
  match v with VUndef | VNull => true | _ => false end.

Fixpoint assoc (k : string) (fields : list (string * value)) : option value :=
  match fields with
  | [] => None
  | (k', v) :: rest => if String.eqb k k' then Some v else assoc k rest
  end.

(** An array index written as a property key: the canonical decimal
    rendering of a natural number. *)
Definition index_of_key (k : string) : option nat :=
  if all_chars is_digit k && String.eqb (pretty (digits_value k)) k
  then Some (Z.to_nat (digits_value k)) else None.

Definition string_at (s : string) (i : nat) : value :=
  match String.get i s with
  | Some c => VStr (String c EmptyString)
  | None => VUndef
  end.

(** [v[k]] on a value that is neither [null] nor [undefined]: the own
    property [k], or [undefined]. *)
Definition prop (v : value) (k : string) : value :=
  match v with
  | VObj fields => default VUndef (assoc k fields)
  | VArr items =>
      if String.eqb k "length" then VNum (Z.of_nat (length items))
      else match index_of_key k with
           | Some i => nth i items VUndef
           | None => VUndef
           end
  | VStr s =>
      if String.eqb k "length" then VNum (Z.of_nat (String.length s))
      else match index_of_key k with
           | Some i => string_at s i
           | None => VUndef
           end
  | _ => VUndef
  end.

(** [v?.k]. *)
Definition opt_prop (v : value) (k : string) : value :=
  if nullish v then VUndef else prop v k.

Definition join_with (sep : string) (parts : list string) : string :=
  match parts with
  | [] => EmptyString
  | p :: rest => fold_left (fun acc q => acc +:+ sep +:+ q) rest p
  end.

(** The string form of a value ([String(v)], [v.toString()] on a value
    that has the method, and the conversion [replace] applies to what its
    callback returns). *)
Fixpoint to_string (v : value) : string :=
  match v with
  | VUndef => "undefined"
  | VNull => "null"
  | VBool true => "true"
  | VBool false => "false"
  | VNum n => pretty n
  | VStr s => s
  | VArr items =>
      join_with "," (map (fun x => if nullish x then EmptyString else to_string x) items)
  | VObj _ => "[object Object]"
  end.

Definition indices (n : nat) : list string :=
  map (fun i : nat => pretty (Z.of_nat i)) (seq 0 n).

(** ** Exceptions and state *)

Inductive exn : Type :=
| TypeError (message : string)
| Error (message : string)
| APIError (message : string) (status : Z).

Definition message_of (e : exn) : string :=
  match e with
  | TypeError m | Error m | APIError m _ => m
  end.

Inductive outcome (A : Type) : Type :=
| Normal (a : A)
| Threw (e : exn).
Arguments Normal {A} a.
Arguments Threw {A} e.

(** A computation over a mutable state [St]: it ends normally with a
    result or throws, and in both cases leaves a state behind. *)
Definition M (St A : Type) : Type := St -> St * outcome A.

Definition ret {St A : Type} (a : A) : M St A := fun s => (s, Normal a).

Definition bind {St A B : Type} (m : M St A) (k : A -> M St B) : M St B :=
  fun s =>
    match m s with
    | (s', Normal a) => k a s'
    | (s', Threw e) => (s', Threw e)
    end.

Definition throw {St A : Type} (e : exn) : M St A := fun s => (s, Threw e).

(** [try { body } catch (error) { handler(error) }]. *)
Definition try_catch {St A : Type} (body : M St A) (handler : exn -> M St A) : M St A :=
  fun s =>
    match body s with
    | (s', Normal a) => (s', Normal a)
    | (s', Threw e) => handler e s'
    end.

Definition modify {St : Type} (f : St -> St) : M St unit := fun s => (f s, Normal tt).

Definition when {St : Type} (b : bool) (m : M St unit) : M St unit :=
  if b then m else ret tt.

Declare Scope m_scope.
Delimit Scope m_scope with M.
Notation "x <- m ;; k" := (bind m (fun x => k))
  (at level 100, m at next level, right associativity) : m_scope.
Notation "m ;; k" := (bind m (fun _ => k))
  (at level 100, right associativity) : m_scope.

(** [list.forEach((x, index) => body)], from index [i] on. *)
Fixpoint forEach_from {St A : Type} (i : nat) (l : list A)
    (body : A -> nat -> M St unit) : M St unit :=
  match l with
  | [] => ret tt
  | x :: rest => bind (body x i) (fun _ => forEach_from (S i) rest body)
  end.

Definition forEach {St A : Type} (l : list A) (body : A -> nat -> M St unit) : M St unit :=
  forEach_from 0 l body.

(** [v.k] where [v] may be [null] or [undefined]. *)
Definition read {St : Type} (v : value) (k : string) : M St value :=
  if nullish v
  then throw (TypeError ("Cannot read properties of " +:+ to_string v
                         +:+ " (reading '" +:+ k +:+ "')"))
  else ret (prop v k).

(** [Object.keys(v)]. *)
Definition object_keys {St : Type} (v : value) : M St (list string) :=
  match v with
  | VObj fields => ret (map fst fields)
  | VArr items => ret (indices (length items))
  | VStr s => ret (indices (String.length s))
  | VUndef | VNull => throw (TypeError "Cannot convert undefined or null to object")
  | _ => ret []
  end.

Definition map_ascii (f : ascii -> ascii) (s : string) : string :=
  string_of_list_ascii (map f (list_ascii_of_string s)).

(** [toUpperCase] and [toLowerCase] on the letters a-z and A-Z. *)
Definition toUpperCase (s : string) : string :=
  map_ascii (fun c => if is_lower c then fromCharCode (char_code c - 32) else c) s.

Definition toLowerCase (s : string) : string :=
  map_ascii (fun c => if is_upper c then fromCharCode (char_code c + 32) else c) s.

(** ** Cells and the style normalizer *)

Local Open Scope m_scope.

(** A worksheet cell: its value and the style attributes the service
    assigns.  An attribute never assigned is [undefined]. *)
Record cell : Type := mkCell {
  c_value : value;
  c_font : value;
  c_fill : value;
  c_alignment : value;
  c_border : value;
  c_numFmt : value
}.

Definition empty_cell : cell := mkCell VNull VUndef VUndef VUndef VUndef VUndef.

(** [cell.value = v]; the sheet stores [undefined] as the empty value. *)
Definition set_value (v : value) (c : cell) : cell :=
  mkCell (if nullish v then VNull else v)
         (c_font c) (c_fill c) (c_alignment c) (c_border c) (c_numFmt c).

Definition set_font (v : value) (c : cell) : cell :=
  mkCell (c_value c) v (c_fill c) (c_alignment c) (c_border c) (c_numFmt c).

Definition set_fill (v : value) (c : cell) : cell :=
  mkCell (c_value c) (c_font c) v (c_alignment c) (c_border c) (c_numFmt c).

Definition set_alignment (v : value) (c : cell) : cell :=
  mkCell (c_value c) (c_font c) (c_fill c) v (c_border c) (c_numFmt c).

Definition set_border (v : value) (c : cell) : cell :=
  mkCell (c_value c) (c_font c) (c_fill c) (c_alignment c) v (c_numFmt c).

Definition set_numFmt (v : value) (c : cell) : cell :=
  mkCell (c_value c) (c_font c) (c_fill c) (c_alignment c) (c_border c) v.

(** The state the cell-level functions work on: the target cell and the
    lines the logger has received as warnings. *)
Record cell_st : Type := mkCellSt {
  cs_cell : cell;
  cs_log : list string
}.

Definition on_target (f : cell -> cell) : M cell_st unit :=
  modify (fun cs => mkCellSt (f (cs_cell cs)) (cs_log cs)).

(** [logger.warn(line)]. *)
Definition warn_cell (line : string) : M cell_st unit :=
  modify (fun cs => mkCellSt (cs_cell cs) (cs_log cs ++ [line])).

(** [color.replace('#', '')]: the first ['#'] is removed. *)
Fixpoint remove_first_hash (s : string) : string :=
  match s with
  | EmptyString => EmptyString
  | String c t => if Ascii.eqb c "#" then t else String c (remove_first_hash t)
  end.

(** [normalizeColor(color)].  A truthy [color] that is not a string has no
    [replace] method: the call throws. *)
Definition normalizeColor (color : value) : outcome string :=
  if negb (truthy color) then Normal "FF000000"
  else match color with
       | VStr s =>
           let color := remove_first_hash s in
           let color := if (String.length color =? 6)%nat then "FF" +:+ color else color in
           Normal (toUpperCase color)
       | _ => Threw (TypeError "color.replace is not a function")
       end.

(** An expression that reads no state, used inside a computation. *)
Definition lift {St A : Type} (o : outcome A) : M St A := fun s => (s, o).

Definition outcome_map {A B : Type} (f : A -> B) (o : outcome A) : outcome B :=
  match o with
  | Normal a => Normal (f a)
  | Threw e => Threw e
  end.

Definition thin : value := VObj [("style", VStr "thin")].

(** The [font] object [applyCellStyle] assigns; evaluating it throws when
    [normalizeColor] does. *)
Definition font_of (font : value) : outcome value :=
  outcome_map
    (fun color =>
       VObj [("name", js_or (prop font "name") (VStr "Calibri"));
             ("size", js_or (prop font "size") (VNum 11));
             ("bold", js_or (prop font "bold") (VBool false));
             ("italic", js_or (prop font "italic") (VBool false));
             ("underline", js_or (prop font "underline") (VBool false));
             ("color", color)])
    (if truthy (prop font "color")
     then outcome_map (fun argb => VObj [("argb", VStr argb)])
                      (normalizeColor (prop font "color"))
     else Normal VUndef).

(** The [fill] object [applyCellStyle] assigns. *)
Definition fill_of (style : value) : outcome value :=
  let bgColor := js_or (prop style "backgroundColor") (opt_prop (prop style "fill") "fgColor") in
  outcome_map
    (fun argb =>
       VObj [("type", VStr "pattern");
             ("pattern", VStr "solid");
             ("fgColor", VObj [("argb", VStr argb)])])
    (normalizeColor bgColor).

Definition alignment_of (alignment : value) : value :=
  VObj [("horizontal", js_or (prop alignment "horizontal") (VStr "left"));
        ("vertical", js_or (prop alignment "vertical") (VStr "top"));
        ("wrapText", js_or (prop alignment "wrapText") (VBool false));
        ("indent", js_or (prop alignment "indent") (VNum 0))].

Definition border_of (border : value) : value :=
  VObj [("top", js_or (prop border "top") thin);
        ("left", js_or (prop border "left") thin);
        ("bottom", js_or (prop border "bottom") thin);
        ("right", js_or (prop border "right") thin)].

(** The body of the [try] block of [applyCellStyle]. *)
Definition applyCellStyle_body (style : value) : M cell_st unit :=
  font <- read style "font" ;;
  when (truthy font)
    (f <- lift (font_of font) ;; on_target (set_font f)) ;;
  when (truthy (prop style "fill") || truthy (prop style "backgroundColor"))
    (f <- lift (fill_of style) ;; on_target (set_fill f)) ;;
  when (truthy (prop style "alignment"))
    (on_target (set_alignment (alignment_of (prop style "alignment")))) ;;
  when (truthy (prop style "border"))
    (on_target (set_border (border_of (prop style "border")))) ;;
  when (truthy (prop style "numFmt"))
    (on_target (set_numFmt (prop style "numFmt"))).

(** The line [applyCellStyle] logs for a caught exception. *)
Definition style_warning (error : exn) : string :=
  "Style application failed: " +:+ message_of error.

(** [applyCellStyle(cell, style)]. *)
Definition applyCellStyle (style : value) : M cell_st unit :=
  try_catch (applyCellStyle_body style)
    (fun error => warn_cell (style_warning error)).



(** [applyCellDataType(cell, dataType, format)]. *)
Definition applyCellDataType (dataType format : value) : M cell_st unit :=
  try_catch
    (tag <- match dataType with
            | VStr s => ret (toLowerCase s)
            | VUndef | VNull =>
                throw (TypeError ("Cannot read properties of " +:+ to_string dataType
                                  +:+ " (reading 'toLowerCase')"))
            | _ => throw (TypeError "dataType.toLowerCase is not a function")
            end ;;
     if String.eqb tag "number" then on_target (set_numFmt (js_or format (VStr "0.00")))
     else if String.eqb tag "currency" then on_target (set_numFmt (js_or format (VStr "$#,##0.00")))
     else if String.eqb tag "percentage" then on_target (set_numFmt (js_or format (VStr "0.00%")))
     else if String.eqb tag "date" then on_target (set_numFmt (js_or format (VStr "mm/dd/yyyy")))
     else if String.eqb tag "datetime" then on_target (set_numFmt (js_or format (VStr "mm/dd/yyyy hh:mm:ss")))
     else if String.eqb tag "time" then on_target (set_numFmt (js_or format (VStr "hh:mm:ss")))
     else if String.eqb tag "text" then on_target (set_numFmt (VStr "@"))
     else ret tt)
    (fun error => warn_cell ("Data type application failed: " +:+ message_of error)).

(** ** Worksheets and the range and table writers *)

(** A table registered with [worksheet.addTable]. *)
Record table_reg : Type := mkTableReg {
  tr_name : value;
  tr_ref : string;
  tr_columns : list string;
  tr_rows : list (list value)
}.

(** A worksheet as the writers see it: the cells reached through
    [worksheet.getCell(address)], keyed by the address string they are
    asked for with, the registered tables, and the warnings logged so far.
    A cell that was never written is read as [empty_cell]; [getCell]
    creates such a cell in the library, which the model does not tell
    apart from a missing one. *)
Record sheet : Type := mkSheet {
  cells : gmap string cell;
  tables : list table_reg;
  sh_log : list string
}.

Definition getCell (sh : sheet) (address : string) : cell :=
  default empty_cell (cells sh !! address).

(** [const cell = worksheet.getCell(address)] followed by operations on
    [cell]: the operations run on the cell stored at [address]. *)
Definition with_cell {A : Type} (address : string) (m : M cell_st A) : M sheet A :=
  fun sh =>
    let '(cs, r) := m (mkCellSt (getCell sh address) (sh_log sh)) in
    (mkSheet (<[address := cs_cell cs]> (cells sh)) (tables sh) (cs_log cs), r).

(** [worksheet.addTable(model)]: the table is recorded.  What the library
    itself renders into the sheet for a registered table is outside the
    model. *)
Definition addTable (reg : table_reg) : M sheet unit :=
  modify (fun sh => mkSheet (cells sh) (tables sh ++ [reg]) (sh_log sh)).

(** [s.match(/[class]+/)[0]], which throws when nothing matches. *)
Definition match_first {St : Type} (p : ascii -> bool) (s : string) : M St string :=
  match first_run p s with
  | Some run => ret run
  | None => throw (TypeError "Cannot read properties of null (reading '0')")
  end.

(** [cell.value = v] and, when a style is given, [applyCellStyle]. *)
Definition write_styled (v style : value) : M cell_st unit :=
  on_target (set_value v) ;;
  when (truthy style) (applyCellStyle style).

Record range_def : Type := mkRangeDef {
  r_range : string;
  r_data : value;
  r_style : value
}.

Definition elements (v : value) : list value :=
  match v with VArr items => items | _ => [] end.

(** [processRange(worksheet, rangeDef)].  Its first statement looks the
    cell of [rangeDef.range] up and does not use it. *)
Definition processRange (rangeDef : range_def) : M sheet unit :=
  try_catch
    (when (truthy (r_data rangeDef) && is_array (r_data rangeDef))
       (let startCell := before_colon (r_range rangeDef) in
        digits <- match_first is_digit startCell ;;
        let startRow := digits_value digits in
        startCol <- match_first is_upper startCell ;;
        forEach (elements (r_data rangeDef)) (fun rowData rowIndex =>
          when (is_array rowData)
            (forEach (elements rowData) (fun cellValue colIndex =>
               let cellAddress :=
                 getCellAddress startCol (startRow + Z.of_nat rowIndex) (Z.of_nat colIndex) in
               with_cell cellAddress (write_styled cellValue (r_style rangeDef)))))))
    (fun error => throw (APIError ("Range processing failed: " +:+ message_of error) 422)).

Record table_def : Type := mkTableDef {
  t_name : value;
  t_range : value;
  t_data : value;
  t_style : value
}.

(** The style [processTable] gives a header cell when the table has no
    header sub-style. *)
Definition default_header_style : value :=
  VObj [("font", VObj [("bold", VBool true);
                       ("color", VObj [("argb", VStr "FFFFFFFF")])]);
        ("fill", VObj [("type", VStr "pattern");
                       ("pattern", VStr "solid");
                       ("fgColor", VObj [("argb", VStr "FF366092")])]);
        ("alignment", VObj [("horizontal", VStr "center");
                            ("vertical", VStr "middle")])].

(** What [processTable] does to a header cell. *)
Definition write_header (header : string) (style : value) : M cell_st unit :=
  on_target (set_value (VStr header)) ;;
  if truthy (opt_prop style "header")
  then applyCellStyle (prop style "header")
  else applyCellStyle default_header_style.

(** What [processTable] does to a body cell of the row of index
    [rowIndex]. *)
Definition write_body (v : value) (rowIndex : nat) (style : value) : M cell_st unit :=
  on_target (set_value v) ;;
  when (truthy (opt_prop style "rows")) (applyCellStyle (prop style "rows")) ;;
  when ((Z.rem (Z.of_nat rowIndex) 2 =? 1) && truthy (opt_prop style "alternateRows"))
    (applyCellStyle (prop style "alternateRows")).

(** [array.map(f)] with an [f] that may throw. *)
Fixpoint mapM {St A B : Type} (f : A -> M St B) (l : list A) : M St (list B) :=
  match l with
  | [] => ret []
  | x :: rest => y <- f x ;; ys <- mapM f rest ;; ret (y :: ys)
  end.

(** [processTable(worksheet, tableDef)]. *)
Definition processTable (tableDef : table_def) : M sheet unit :=
  try_catch
    (let data := t_data tableDef in
     when (negb (truthy data) || negb (is_array data) || (length (elements data) =? 0)%nat)
       (throw (Error "Table data is required and must be a non-empty array")) ;;
     startCell <- (if truthy (t_range tableDef)
                   then match t_range tableDef with
                        | VStr range => ret (before_colon range)
                        | _ => throw (TypeError "tableDef.range.split is not a function")
                        end
                   else ret "A1") ;;
     headers <- object_keys (nth 0 (elements data) VUndef) ;;
     digits <- match_first is_digit startCell ;;
     let startRow := digits_value digits in
     startColLetter <- match_first is_upper startCell ;;
     forEach headers (fun header index =>
       let cellAddress := getCellAddress startColLetter startRow (Z.of_nat index) in
       with_cell cellAddress (write_header header (t_style tableDef))) ;;
     forEach (elements data) (fun rowData rowIndex =>
       forEach headers (fun header colIndex =>
         let cellAddress :=
           getCellAddress startColLetter (startRow + Z.of_nat rowIndex + 1) (Z.of_nat colIndex) in
         v <- read rowData header ;;
         with_cell cellAddress (write_body v rowIndex (t_style tableDef)))) ;;
     when (truthy (t_name tableDef))
       (let endRow := startRow + Z.of_nat (length (elements data)) in
        endCol <- match_first is_upper
                    (getCellAddress startColLetter 1 (Z.of_nat (length headers) - 1)) ;;
        let tableRange := startCell +:+ ":" +:+ endCol +:+ pretty endRow in
        rows <- mapM (fun row => mapM (fun header => read row header) headers)
                     (elements data) ;;
        addTable (mkTableReg (t_name tableDef) tableRange headers rows)))
    (fun error => throw (APIError ("Table processing failed: " +:+ message_of error) 422)).

(** *** Reading the writers as sequences of cell writes *)

(** The cell a cell-level computation leaves behind. *)
Definition run_cell (m : M cell_st unit) (c : cell) : cell :=
  cs_cell (fst (m (mkCellSt c []))).

(** A cell-level computation that always ends normally and whose effect
    on the cell does not depend on the log it appends to. *)
Definition cell_op (m : M cell_st unit) : Prop :=
  forall (c : cell) (log : list string),
    exists w : list string,
      m (mkCellSt c log) = (mkCellSt (run_cell m c) (log ++ w), Normal tt).

(** Writes in the order they are made; a later write to an address works
    on the cell the earlier ones left there. *)
Definition replay (ws : list (string * (cell -> cell))) (m : gmap string cell)
  : gmap string cell :=
  fold_left (fun m w => <[w.1 := w.2 (default empty_cell (m !! w.1))]> m) ws m.

(** A sheet-level computation that ends normally after making exactly the
    writes [ws], leaving the registered tables alone. *)
Definition performs (body : M sheet unit) (ws : list (string * (cell -> cell))) : Prop :=
  forall sh : sheet,
    exists log' : list string,
      body sh = (mkSheet (replay ws (cells sh)) (tables sh) log', Normal tt).

(** What a [forEach] loop collects, from index [i] on. *)
Fixpoint flat_from {A B : Type} (i : nat) (l : list A) (w : A -> nat -> list B) : list B :=
  match l with
  | [] => []
  | x :: rest => w x i ++ flat_from (S i) rest w
  end.


(** The writes [processTable] makes: the header row, then one row for
    each element of the data, every row with one cell for each header. *)
Definition header_writes (startCol : string) (startRow : Z) (style : value)
    (headers : list string) : list (string * (cell -> cell)) :=
  flat_from 0 headers (fun header j =>
    [(getCellAddress startCol startRow (Z.of_nat j),
      run_cell (write_header header style))]).

Definition body_writes (startCol : string) (startRow : Z) (style : value)
    (headers : list string) (items : list value) : list (string * (cell -> cell)) :=
  flat_from 0 items (fun rowData i =>
    flat_from 0 headers (fun header j =>
      [(getCellAddress startCol (startRow + Z.of_nat i + 1) (Z.of_nat j),
        run_cell (write_body (prop rowData header) i style))])).

Definition table_writes (startCol : string) (startRow : Z) (style : value)
    (headers : list string) (items : list value) : list (string * (cell -> cell)) :=
  header_writes startCol startRow style headers
  ++ body_writes startCol startRow style headers items.

(** The anchor [processTable] starts from: the part of the range before
    its colon, or ["A1"] when the table has no range. *)
Definition anchored (range : value) (startCell : string) : Prop :=
  (range = VUndef /\ startCell = "A1")
  \/ (exists r, range = VStr r /\ r <> EmptyString /\ startCell = before_colon r).

(** ** Rows, columns and sheet formatting *)

(** A worksheet as sheet formatting and the template filler see it: the
    rows with the values of their cells (an empty or missing cell is
    [VNull], a missing row has no cells), the widths of
    [worksheet.columns] ([None] when the sheet has no column list yet, in
    which case [worksheet.columns] is [null]), and the warnings logged. *)
Record wsheet : Type := mkWsheet {
  ws_rows : list (list value);
  ws_columns : option (list value);
  ws_log : list string
}.

Definition warn_ws (line : string) : M wsheet unit :=
  modify (fun ws => mkWsheet (ws_rows ws) (ws_columns ws) (ws_log ws ++ [line])).

(** The value of the cell of column [c] in a row (both counted from 0). *)
Definition cell_of (row : list value) (c : nat) : value := nth c row VNull.

(** [cell.value ? cell.value.toString().length : 10]. *)
Definition columnLength (v : value) : Z :=
  if truthy v then Z.of_nat (String.length (to_string v)) else 10.

(** The loop of [column.eachCell({ includeEmpty: true }, ...)] over the
    cells of column [c], one for every row of the sheet. *)
Definition maxLength (rows : list (list value)) (c : nat) : Z :=
  fold_left
    (fun maxLength row =>
       let columnLength := columnLength (cell_of row c) in
       if maxLength <? columnLength then columnLength else maxLength)
    rows 0.

(** [column.width = w] on the column of index [c]. *)
Definition set_width (c : nat) (w : value) : M wsheet unit :=
  modify (fun ws =>
    mkWsheet (ws_rows ws) ((fun cols => <[c := w]> cols) <$> ws_columns ws) (ws_log ws)).

(** [applySheetFormatting(worksheet, formatting)]: the auto-width block.
    The two blocks after it in the same [try] assign [worksheet.views] and
    [worksheet.pageSetup]; no column is read or written there. *)
Definition applySheetFormatting (formatting : value) : M wsheet unit :=
  try_catch
    (autoWidth <- read formatting "autoWidth" ;;
     when (truthy autoWidth)
       (fun ws =>
          match ws_columns ws with
          | None => throw (TypeError "Cannot read properties of null (reading 'forEach')") ws
          | Some columns =>
              forEach columns (fun _ c =>
                set_width c (VNum (Z.min (maxLength (ws_rows ws) c + 2) 50))) ws
          end))
    (fun error => warn_ws ("Sheet formatting failed: " +:+ message_of error)).



(** ** Template filler *)

(** [s] without its prefix [pre], when it starts with it. *)
Fixpoint strip_prefix (pre s : string) : option string :=
  match pre with
  | EmptyString => Some s
  | String p pre' =>
      match s with
      | String c t => if Ascii.eqb p c then strip_prefix pre' t else None
      | EmptyString => None
      end
  end.

(** A match of [open \w+ "}}"] at the start of [s]: the key and what
    follows the match.  The key is the longest run of word characters:
    a shorter one would be followed by a word character, not by ["}}"]. *)
Definition match_key (open s : string) : option (string * string) :=
  match strip_prefix open s with
  | Some t =>
      let '(key, r) := span is_word t in
      if String.eqb key EmptyString then None
      else match strip_prefix "}}" r with
           | Some rest => Some (key, rest)
           | None => None
           end
  | None => None
  end.

(** A match of [/\{\{(\w+)\}\}/] at the start of [s]. *)
Definition match_placeholder (s : string) : option (string * string) :=
  match_key "{{" s.

(** A match of [/\{\{#(\w+)\}\}/] at the start of [s]. *)
Definition match_marker (s : string) : option (string * string) :=
  match_key "{{#" s.

(** [s.replace(/\{\{(\w+)\}\}/g, (match, key) => f(key))]: the matches
    are found from left to right and do not overlap; [fuel] bounds the
    number of characters looked at. *)
Fixpoint replace_fuel (fuel : nat) (f : string -> string) (s : string) : string :=
  match fuel with
  | O => s
  | S fuel' =>
      match s with
      | EmptyString => EmptyString
      | String c t =>
          match match_placeholder s with
          | Some (key, rest) => f key +:+ replace_fuel fuel' f rest
          | None => String c (replace_fuel fuel' f t)
          end
      end
  end.

Definition replace_all (f : string -> string) (s : string) : string :=
  replace_fuel (String.length s) f s.

(** The key of the first match of the expression in [s], if any. *)
Fixpoint first_placeholder (s : string) : option string :=
  match s with
  | EmptyString => None
  | String _ t =>
      match match_placeholder s with
      | Some (key, _) => Some key
      | None => first_placeholder t
      end
  end.

(** [arrayRegex.exec(s)]: the key of the first marker in [s]. *)
Fixpoint find_marker (s : string) : option string :=
  match s with
  | EmptyString => None
  | String _ t =>
      match match_marker s with
      | Some (key, _) => Some key
      | None => find_marker t
      end
  end.

(** [s.replace(/\{\{#\w+\}\}/, '')]: the first marker is removed. *)
Fixpoint strip_marker (s : string) : string :=
  match s with
  | EmptyString => EmptyString
  | String c t =>
      match match_marker s with
      | Some (_, rest) => rest
      | None => String c (strip_marker t)
      end
  end.

(** The callback [(match, key) => source[key] !== undefined ? source[key]
    : match], with the conversion to a string [replace] applies to its
    result. *)
Definition substitute (source : value) (key : string) : string :=
  match prop source key with
  | VUndef => "{{" +:+ key +:+ "}}"
  | v => to_string v
  end.

(** The replacement of the placeholders of [s] from [source]; reading
    [source[key]] throws when [source] is [null] or [undefined], which
    happens at the first match. *)
Definition replace_placeholders {St : Type} (source : value) (s : string) : M St string :=
  if nullish source
  then match first_placeholder s with
       | Some key =>
           throw (TypeError ("Cannot read properties of " +:+ to_string source
                             +:+ " (reading '" +:+ key +:+ "')"))
       | None => ret s
       end
  else ret (replace_all (substitute source) s).


Local Open Scope m_scope.

(** [for (i = start; i < start + count; i++) body(i)]: the iteration of
    [forEach] over an array that the body may change, whose length was
    read before the first call. *)
Fixpoint for_range {St : Type} (start count : nat) (body : nat -> M St unit) : M St unit :=
  match count with
  | O => ret tt
  | S count' => body start ;; for_range (S start) count' body
  end.

Definition row_at (ws : wsheet) (k : nat) : list value := nth k (ws_rows ws) [].

(** [row.hasValues]. *)
Definition hasValues (row : list value) : bool :=
  existsb (fun v => negb (nullish v)) row.

(** [cell.value = v] on the cell of column [c] of row [k]. *)
Definition set_cell (k c : nat) (v : value) : M wsheet unit :=
  modify (fun ws =>
    mkWsheet (<[k := <[c := v]> (row_at ws k)]> (ws_rows ws)) (ws_columns ws) (ws_log ws)).

(** [worksheet.insertRow(pos, [])] with [pos = p + 1]: the rows from
    position [p] on move down by one and an empty row takes their place.
    Behind the last row the sheet is first extended with missing rows. *)
Definition insertRow (p : nat) : M wsheet unit :=
  modify (fun ws =>
    let rows := ws_rows ws in
    mkWsheet
      (if (p <=? length rows)%nat
       then take p rows ++ [[]] ++ drop p rows
       else rows ++ replicate (p - length rows)%nat [] ++ [[]])
      (ws_columns ws) (ws_log ws)).

(** [row.eachCell(callback)] on row [k]: the cells that hold a value, from
    left to right. *)
Definition eachCell (k : nat) (callback : value -> nat -> M wsheet unit) : M wsheet unit :=
  fun ws =>
    for_range 0 (length (row_at ws k))
      (fun c ws' =>
         let v := cell_of (row_at ws' k) c in
         if nullish v then ret tt ws' else callback v c ws')
      ws.

(** [worksheet.eachRow(callback)]: the rows that have values, from top to
    bottom. *)
Definition eachRow (callback : nat -> M wsheet unit) : M wsheet unit :=
  fun ws =>
    for_range 0 (length (ws_rows ws))
      (fun k ws' => if hasValues (row_at ws' k) then callback k ws' else ret tt ws')
      ws.

Definition is_string (v : value) : bool :=
  match v with VStr _ => true | _ => false end.

Definition string_of (v : value) : string :=
  match v with VStr s => s | _ => EmptyString end.

(** The pass over the row of one element of the array: in every cell that
    holds a non-empty string the first marker is removed and the
    placeholders are replaced from the element. *)
Definition fill_item_row (k : nat) (item : value) : M wsheet unit :=
  eachCell k (fun arrayCellValue c =>
    when (truthy arrayCellValue && is_string arrayCellValue)
      (let arrayValue := strip_marker (string_of arrayCellValue) in
       arrayValue <- replace_placeholders item arrayValue ;;
       set_cell k c (VStr arrayValue))).

(** The callback [fillWorksheetTemplate] runs on the cell of column [c] of
    row [k], whose value is [cellValue0]. *)
Definition fill_cell (data : value) (k : nat) (cellValue0 : value) (c : nat) : M wsheet unit :=
  when (truthy cellValue0 && is_string cellValue0)
    (cellValue <- replace_placeholders data (string_of cellValue0) ;;
     arrayData <- match find_marker cellValue with
                  | Some key => read data key
                  | None => ret VUndef
                  end ;;
     if truthy arrayData && is_array arrayData
     then forEach (elements arrayData) (fun item index =>
            when (0 <? index)%nat (insertRow (k + index)) ;;
            fill_item_row (k + index) item)
     else set_cell k c (VStr cellValue)).

(** [fillWorksheetTemplate(worksheet, data)]. *)
Definition fillWorksheetTemplate (data : value) : M wsheet unit :=
  try_catch
    (eachRow (fun k => eachCell k (fill_cell data k)))
    (fun error => warn_ws ("Worksheet template filling failed: " +:+ message_of error)).



(** A computation that leaves the first [n] rows of the sheet as they
    are, whether it ends normally or throws. *)
Definition keeps {A : Type} (n : nat) (m : M wsheet A) : Prop :=
  forall ws : wsheet,
    (n <= length (ws_rows ws))%nat ->
    take n (ws_rows (fst (m ws))) = take n (ws_rows ws).

(** ** Single cells *)

(** A cell definition of a sheet: the address and the optional value,
    formula, style, data type and format. *)
Record cell_def : Type := mkCellDef {
  cd_cell : string;
  cd_value : value;
  cd_formula : value;
  cd_style : value;
  cd_dataType : value;
  cd_format : value
}.

(** [processCell(worksheet, cellDef)]. *)
Definition processCell (cellDef : cell_def) : M sheet unit :=
  try_catch
    (with_cell (cd_cell cellDef)
       ((if truthy (cd_formula cellDef)
         then on_target (set_value (VObj [("formula", cd_formula cellDef);
                                          ("result", cd_value cellDef)]))
         else on_target (set_value (cd_value cellDef))) ;;
        when (truthy (cd_style cellDef)) (applyCellStyle (cd_style cellDef)) ;;
        when (truthy (cd_dataType cellDef))
          (applyCellDataType (cd_dataType cellDef) (cd_format cellDef))))
    (fun error =>
       throw (APIError ("Cell processing failed for " +:+ cd_cell cellDef +:+ ": "
                        +:+ message_of error) 422)).


(** ** The pass over the row of an array element *)


(** ** Frozen panes *)

(** The freeze-panes block of [applySheetFormatting]: the value it assigns
    to [worksheet.views], or [None] when it assigns nothing.  The two
    counts are numbers; a count that is absent acts as 0, as [|| 0] makes
    it. *)
Definition freeze_view (freezeRows freezeCols : Z) : option value :=
  if truthy (js_or (VNum freezeRows) (VNum freezeCols))
  then
    let freezeRow := freezeRows + 1 in
    let freezeCol := freezeCols + 1 in
    Some (VArr [VObj [("state", VStr "frozen");
                      ("xSplit", VNum freezeCols);
                      ("ySplit", VNum freezeRows);
                      ("topLeftCell", VStr (getCellAddress "A" freezeRow (freezeCol - 1)))]])
  else None.

(** ** The error-handling middleware *)

(** [s.includes(needle)]. *)
Fixpoint includes (needle s : string) {struct s} : bool :=
  match strip_prefix needle s with
  | Some _ => true
  | None =>
      match s with
      | EmptyString => false
      | String _ t => includes needle t
      end
  end.

(** The properties of the error object the middleware reads.  [message]
    is a string, as it is on every [Error]. *)
Record js_error : Type := mkJsError {
  err_name : value;
  err_code : value;
  err_message : string;
  err_statusCode : value;
  err_details : value;
  err_stack : value
}.

(** [new APIError(message, statusCode, details)]; [stack] is the trace
    captured at construction. *)
Definition new_APIError (message : string) (statusCode details stack : value) : js_error :=
  mkJsError (VStr "APIError") VUndef message
            (if statusCode is VUndef then VNum 500 else statusCode)
            (if details is VUndef then VNull else details)
            stack.

(** [v === s] for a string literal [s]. *)
Definition is_str (v : value) (s : string) : bool :=
  match v with VStr t => String.eqb t s | _ => false end.

(** [object.k = v]: an existing property keeps its place, a new one goes
    last. *)
Fixpoint set_field (k : string) (v : value) (fields : list (string * value))
  : list (string * value) :=
  match fields with
  | [] => [(k, v)]
  | (k', v') :: rest =>
      if String.eqb k k' then (k, v) :: rest else (k', v') :: set_field k v rest
  end.

(** What the middleware sends: [res.status(statusCode).json(error)]. *)
Record response : Type := mkResponse {
  res_status : value;
  res_body : list (string * value)
}.

(** [errorHandler(err, req, res, next)].  [development] tells whether
    [process.env.NODE_ENV] is ['development'] and [now] is the time stamp
    of the response.  The entry the middleware logs first is not part of
    what it sends. *)
Definition errorHandler (development : bool) (now : string) (err : js_error) : response :=
  let error := [("success", VBool false);
                ("message", VStr "Internal Server Error");
                ("timestamp", VStr now)] in
  let error :=
    if is_str (err_name err) "ValidationError" then
      set_field "statusCode" (VNum 400)
        (set_field "details" (js_or (err_details err) (VStr (err_message err)))
           (set_field "message" (VStr "Validation Error") error))
    else if is_str (err_name err) "CastError" then
      set_field "statusCode" (VNum 400)
        (set_field "message" (VStr "Invalid data format") error)
    else if is_str (err_code err) "LIMIT_FILE_SIZE" then
      set_field "statusCode" (VNum 413)
        (set_field "message" (VStr "File size too large") error)
    else if is_str (err_code err) "ENOENT" then
      set_field "statusCode" (VNum 404)
        (set_field "message" (VStr "File not found") error)
    else if includes "Excel" (err_message err) then
      set_field "statusCode" (VNum 422)
        (set_field "details"
           (VStr (if development then err_message err else "Error processing Excel file"))
           (set_field "message" (VStr "Excel processing error") error))
    else if includes "Database" (err_message err) then
      set_field "statusCode" (VNum 500)
        (set_field "details"
           (VStr (if development then err_message err else "Database operation failed"))
           (set_field "message" (VStr "Database error") error))
    else error in
  let statusCode :=
    js_or (prop (VObj error) "statusCode") (js_or (err_statusCode err) (VNum 500)) in
  let error :=
    if development
    then set_field "originalError" (VStr (err_message err))
           (set_field "stack" (err_stack err) error)
    else error in
  mkResponse statusCode error.

(** ** Sheets *)

(** A sheet definition: its cells, ranges and tables (a list that is
    absent acts as the empty list) and its formatting object. *)
Record sheet_def : Type := mkSheetDef {
  sd_cells : list cell_def;
  sd_ranges : list range_def;
  sd_tables : list table_def;
  sd_formatting : value
}.

Section ProcessSheet.

(** [applySheetFormatting] works on the rows and columns of the worksheet,
    which the writers' view of a sheet does not hold (see
    [applySheetFormatting] above, on [wsheet]); [formatSheet] stands for
    what it does on the writers' view. *)
Variable formatSheet : value -> M sheet unit.

(** [processSheet(workbook, sheetDef)], on the worksheet its first
    statement fetches or creates. *)
Definition processSheet (sheetDef : sheet_def) : M sheet unit :=
  try_catch
    (forEach (sd_cells sheetDef) (fun cellDef _ => processCell cellDef) ;;
     forEach (sd_ranges sheetDef) (fun rangeDef _ => processRange rangeDef) ;;
     forEach (sd_tables sheetDef) (fun tableDef _ => processTable tableDef) ;;
     when (truthy (sd_formatting sheetDef)) (formatSheet (sd_formatting sheetDef)))
    (fun error => throw (APIError ("Sheet processing failed: " +:+ message_of error) 422)).

End ProcessSheet.
(** * Properties *)

(** ** Address resolver: properties *)

Lemma char_code_range (c : ascii) : 0 <= char_code c < 256.
Proof.
  unfold char_code. pose proof (Ascii.N_ascii_bounded c). lia.
Qed.

Lemma char_code_fromCharCode (n : Z) :
  0 <= n < 256 -> char_code (fromCharCode n) = n.
Proof.
  intros Hn. unfold char_code, fromCharCode.
  rewrite Z.mod_small by lia.
  rewrite Ascii.N_ascii_embedding by lia. lia.
Qed.


Lemma is_upper_spec (c : ascii) : is_upper c = true <-> 0 <= col_index c <= 25.
Proof.
  unfold is_upper, col_index. rewrite andb_true_iff, !Z.leb_le. lia.
Qed.

Lemma is_digit_pretty_N_char (x : N) : is_digit (pretty_N_char x) = true.
Proof.
  unfold pretty_N_char. repeat case_match; reflexivity.
Qed.


(** The digits [pretty_N_go] puts in front of [s] are decimal digits, and
    reading them back continues the accumulator in base 10. *)
Lemma pretty_N_go_digits (x : N) :
  forall s : string,
    all_chars is_digit s = true -> all_chars is_digit (pretty_N_go x s) = true.
Proof.
  induction (N.lt_wf_0 x) as [x _ IH]. intros s Hs.
  destruct (decide (x = 0%N)) as [->|Hx].
  - rewrite pretty_N_go_0. exact Hs.
  - rewrite pretty_N_go_step by lia.
    apply IH.
    + apply N.div_lt; lia.
    + unfold all_chars in *. simpl. rewrite is_digit_pretty_N_char. exact Hs.
Qed.


Lemma pretty_N_digits (x : N) : all_chars is_digit (pretty x) = true.
Proof.
  unfold pretty, pretty_N. case_decide; [reflexivity|].
  apply pretty_N_go_digits. reflexivity.
Qed.



Lemma pretty_N_nonempty (x : N) : pretty x <> EmptyString.
Proof.
  unfold pretty, pretty_N. case_decide as Hx; [discriminate|].
  rewrite pretty_N_go_step by lia.
  intros Heq.
  assert (Hlen : forall y s, (String.length s <= String.length (pretty_N_go y s))%nat).
  { intros y. induction (N.lt_wf_0 y) as [y _ IH]. intros s.
    destruct (decide (y = 0%N)) as [->|Hy]; [rewrite pretty_N_go_0; lia|].
    rewrite pretty_N_go_step by lia.
    etrans; [|apply IH; apply N.div_lt; lia]. simpl. lia. }
  specialize (Hlen (x `div` 10)%N (String (pretty_N_char (x `mod` 10)) EmptyString)).
  rewrite Heq in Hlen. simpl in Hlen. lia.
Qed.

(** The rendering of a row number never starts with an uppercase letter,
    so the column part of a produced address is its first character. *)
Lemma pretty_row_head (row : Z) :
  exists c t, pretty row = String c t /\ is_upper c = false.
Proof.
  destruct row as [|p|p].
  - exists "0"%char, EmptyString. split; reflexivity.
  - change (pretty (Z.pos p)) with (pretty (N.pos p)).
    pose proof (pretty_N_digits (N.pos p)) as Hd.
    pose proof (pretty_N_nonempty (N.pos p)) as Hne.
    destruct (pretty (N.pos p)) as [|c t]; [congruence|].
    exists c, t. split; [reflexivity|].
    unfold all_chars in Hd. simpl in Hd. apply andb_true_iff in Hd as [Hc _].
    unfold is_digit in Hc. unfold is_upper.
    apply andb_true_iff in Hc as [_ Hc]. apply Z.leb_le in Hc.
    apply andb_false_iff. left. apply Z.leb_gt. lia.
  - exists "-"%char, (pretty (N.pos p)). split; reflexivity.
Qed.

Lemma span_upper_address (l : ascii) (row : Z) :
  is_upper l = true ->
  span is_upper (String l (pretty row)) = (String l EmptyString, pretty row).
Proof.
  intros Hl. destruct (pretty_row_head row) as (c & t & Hrow & Hc).
  simpl. rewrite Hl, Hrow. simpl. rewrite Hc. reflexivity.
Qed.

(** The letter of a produced address, for any anchor whose first character
    has code [code]: its code is [65 + (code - 65 + off) rem 26]. *)
Lemma getCellAddress_letter (c : ascii) (rest : string) (row off : Z) :
  getCellAddress (String c rest) row off
  = String (fromCharCode (65 + Z.rem (col_index c + off) 26)) (pretty row).
Proof. reflexivity. Qed.

(** The code of the produced letter stays between 40 and 90 whatever the
    offset is; it is a letter exactly when the remainder is not negative. *)
Lemma getCellAddress_code (c : ascii) (off : Z) :
  char_code (fromCharCode (65 + Z.rem (col_index c + off) 26))
  = 65 + Z.rem (col_index c + off) 26.
Proof.
  apply char_code_fromCharCode.
  pose proof (Z.rem_bound_abs (col_index c + off) 26 ltac:(lia)). lia.
Qed.

(** Wrap-around: from a non-negative column index the letter is the one
    of index [(anchor + off) mod 26], however large the offset. *)
Lemma getCellAddress_wraps (c : ascii) (rest : string) (row off : Z) :
  0 <= col_index c + off ->
  exists l : ascii,
    getCellAddress (String c rest) row off = String l (pretty row)
    /\ is_upper l = true
    /\ col_index l = (col_index c + off) mod 26.
Proof.
  intros Hnn. eexists. split; [apply getCellAddress_letter|].
  assert (Hcode := getCellAddress_code c off).
  rewrite Z.rem_mod_nonneg in * by lia.
  pose proof (Z.mod_pos_bound (col_index c + off) 26 ltac:(lia)) as Hb.
  set (l := fromCharCode _) in *.
  assert (Hidx : col_index l = (col_index c + off) mod 26)
    by (unfold col_index at 1; lia).
  split; [apply is_upper_spec; lia | exact Hidx].
Qed.



(** Below the first column the remainder is negative and the produced
    character lies before ['A']. *)
Lemma getCellAddress_below_A (c : ascii) (rest : string) (row off : Z) :
  -26 < col_index c + off < 0 ->
  exists l : ascii,
    getCellAddress (String c rest) row off = String l (pretty row)
    /\ char_code l = 65 + (col_index c + off)
    /\ is_upper l = false.
Proof.
  intros Hneg. eexists. split; [apply getCellAddress_letter|].
  assert (Hcode := getCellAddress_code c off).
  assert (Hrem : Z.rem (col_index c + off) 26 = col_index c + off).
  { apply Z.rem_small_iff; lia. }
  rewrite Hrem in *. split; [exact Hcode|].
  unfold is_upper. rewrite Hcode.
  apply andb_false_iff. left. apply Z.leb_gt. lia.
Qed.

(** C10. [getCellAddress] is not total over integer offsets: anchor ["A"],
    row 5 and offset -1 give a negative remainder and the string ["@5"],
    whose first character is not an uppercase letter, so the result does not
    match the address pattern [[A-Z]+[0-9]+]. *)
Theorem getCellAddress_negative_offset :
  is_upper "A" = true
  /\ col_index "A" + (-1) < 0
  /\ Z.rem (col_index "A" + (-1)) 26 < 0
  /\ getCellAddress "A" 5 (-1) = "@5"
  /\ is_upper "@" = false
  /\ address_ok (getCellAddress "A" 5 (-1)) = false.
Proof.
  vm_compute. repeat split; congruence.
Qed.

(** ** Style normalizer: properties *)

Section StyleApplication.

Variable style : value.
Variable cs : cell_st.

(** What the [try] block does: it either completes, having applied every
    sub-style that is present, or throws at the font or at the fill, the
    only sub-styles that normalize a color. *)
Lemma applyCellStyle_body_cases :
  (exists cs', applyCellStyle_body style cs = (cs', Normal tt)
     /\ cs_log cs' = cs_log cs
     /\ c_value (cs_cell cs') = c_value (cs_cell cs)
     /\ nullish style = false
     /\ (if truthy (prop style "font")
         then font_of (prop style "font") = Normal (c_font (cs_cell cs'))
         else c_font (cs_cell cs') = c_font (cs_cell cs))
     /\ (if truthy (prop style "fill") || truthy (prop style "backgroundColor")
         then fill_of style = Normal (c_fill (cs_cell cs'))
         else c_fill (cs_cell cs') = c_fill (cs_cell cs))
     /\ c_alignment (cs_cell cs')
        = (if truthy (prop style "alignment")
           then alignment_of (prop style "alignment")
           else c_alignment (cs_cell cs))
     /\ c_border (cs_cell cs')
        = (if truthy (prop style "border")
           then border_of (prop style "border")
           else c_border (cs_cell cs))
     /\ c_numFmt (cs_cell cs')
        = (if truthy (prop style "numFmt")
           then prop style "numFmt"
           else c_numFmt (cs_cell cs)))
  \/ (exists cs' e, applyCellStyle_body style cs = (cs', Threw e)
     /\ cs_log cs' = cs_log cs
     /\ c_value (cs_cell cs') = c_value (cs_cell cs)
     /\ c_fill (cs_cell cs') = c_fill (cs_cell cs)
     /\ c_alignment (cs_cell cs') = c_alignment (cs_cell cs)
     /\ c_border (cs_cell cs') = c_border (cs_cell cs)
     /\ c_numFmt (cs_cell cs') = c_numFmt (cs_cell cs)
     /\ (c_font (cs_cell cs') = c_font (cs_cell cs)
         \/ (nullish style = false
             /\ truthy (prop style "font") = true
             /\ font_of (prop style "font") = Normal (c_font (cs_cell cs'))
             /\ fill_of style = Threw e))).
Proof.
  unfold applyCellStyle_body, read, bind, when, lift, on_target, modify, ret, throw.
  destruct (nullish style) eqn:Hnull.
  { right. eexists _, _. split; [reflexivity|]. repeat split; auto. }
  destruct (truthy (prop style "font")) eqn:Hfont;
    [destruct (font_of (prop style "font")) as [f|e] eqn:Hf|].
  2: { right. eexists _, _. split; [reflexivity|]. repeat split; auto. }
  all: destruct (truthy (prop style "fill") || truthy (prop style "backgroundColor")) eqn:Hfill;
    [destruct (fill_of style) as [g|e] eqn:Hg|].
  all: try (right; eexists _, _; split; [reflexivity|]; simpl;
            repeat split; auto; right; repeat split; auto; fail).
  all: left; destruct (truthy (prop style "alignment")), (truthy (prop style "border")),
         (truthy (prop style "numFmt"));
    eexists; (split; [reflexivity|]); simpl; repeat split; auto.
Qed.

End StyleApplication.



(** C8 (as amended).  For each of the seven data-type tags the number
    format becomes the tag's fixed default when no format (or an empty one)
    is given; a non-empty explicit format overrides the default for every
    tag except [text], whose format is always ["@"]. *)
Theorem applyCellDataType_formats (tag def : string) (format : value) (cs : cell_st) :
  In (tag, def)
     [("number", "0.00"); ("currency", "$#,##0.00"); ("percentage", "0.00%");
      ("date", "mm/dd/yyyy"); ("datetime", "mm/dd/yyyy hh:mm:ss");
      ("time", "hh:mm:ss"); ("text", "@")] ->
  applyCellDataType (VStr tag) format cs
  = (mkCellSt
       (set_numFmt
          (if String.eqb tag "text" then VStr "@"
           else if truthy format then format else VStr def)
          (cs_cell cs))
       (cs_log cs),
     Normal tt).
Proof.
  intros Hin. simpl in Hin.
  repeat (destruct Hin as [Heq | Hin]; [injection Heq as <- <-; clear|]);
    try contradiction;
    unfold applyCellDataType, try_catch, bind, ret, on_target, modify, js_or; simpl;
    destruct (truthy format); reflexivity.
Qed.

Lemma applyCellDataType_formats_witness :
  applyCellDataType (VStr "currency") (VStr "#,##0") (mkCellSt empty_cell [])
  = (mkCellSt (set_numFmt (VStr "#,##0") empty_cell) [], Normal tt).
Proof.
  apply (applyCellDataType_formats "currency" "$#,##0.00" (VStr "#,##0")
           (mkCellSt empty_cell [])).
  simpl. right. left. reflexivity.
Defined.

(** The tag [text] ignores an explicit format, and an empty format string
    counts as no format. *)
Lemma applyCellDataType_text_ignores_format :
  c_numFmt (cs_cell (fst (applyCellDataType (VStr "text") (VStr "0.00")
                            (mkCellSt empty_cell []))))
  <> VStr "0.00"
  /\ c_numFmt (cs_cell (fst (applyCellDataType (VStr "number") (VStr "")
                               (mkCellSt empty_cell []))))
     <> VStr "".
Proof.
  vm_compute. split; congruence.
Qed.

(** ** Range and table writers: properties *)

(** *** Cell-level operations *)

Lemma applyCellStyle_body_log (style : value) (c : cell) :
  exists (c' : cell) (r : outcome unit),
    forall log : list string,
      applyCellStyle_body style (mkCellSt c log) = (mkCellSt c' log, r).
Proof.
  unfold applyCellStyle_body, read, bind, when, lift, on_target, modify, ret, throw.
  destruct (nullish style); [eexists _, _; intros; simpl; reflexivity|].
  destruct (truthy (prop style "font"));
    [destruct (font_of (prop style "font"))|];
    try (eexists _, _; intros; simpl; reflexivity; fail).
  all: destruct (truthy (prop style "fill") || truthy (prop style "backgroundColor"));
    [destruct (fill_of style)|];
    try (eexists _, _; intros; simpl; reflexivity; fail).
  all: destruct (truthy (prop style "alignment")), (truthy (prop style "border")),
         (truthy (prop style "numFmt"));
    eexists _, _; intros; simpl; reflexivity.
Qed.

Lemma cell_op_applyCellStyle (style : value) : cell_op (applyCellStyle style).
Proof.
  intros c log. unfold run_cell, applyCellStyle, try_catch.
  destruct (applyCellStyle_body_log style c) as (c' & r & Hrun).
  rewrite !Hrun. destruct r as [[]|e]; simpl.
  - exists []. rewrite app_nil_r. reflexivity.
  - exists [style_warning e]. reflexivity.
Qed.

Lemma cell_op_on_target (f : cell -> cell) : cell_op (on_target f).
Proof.
  intros c log. exists []. rewrite app_nil_r. reflexivity.
Qed.

Lemma cell_op_ret : cell_op (ret tt).
Proof.
  intros c log. exists []. rewrite app_nil_r. reflexivity.
Qed.

Lemma cell_op_bind (m k : M cell_st unit) :
  cell_op m -> cell_op k ->
  cell_op (bind m (fun _ => k))
  /\ forall c, run_cell (bind m (fun _ => k)) c = run_cell k (run_cell m c).
Proof.
  intros Hm Hk.
  assert (Hrun : forall c, run_cell (bind m (fun _ => k)) c = run_cell k (run_cell m c)).
  { intros c. unfold run_cell at 1, bind.
    destruct (Hm c []) as (w & ->). simpl.
    destruct (Hk (run_cell m c) w) as (w' & ->). reflexivity. }
  split; [|exact Hrun].
  intros c log. rewrite Hrun. unfold bind.
  destruct (Hm c log) as (w & ->).
  destruct (Hk (run_cell m c) (log ++ w)) as (w' & ->).
  exists (w ++ w'). rewrite app_assoc. reflexivity.
Qed.

Lemma cell_op_when (b : bool) (m : M cell_st unit) : cell_op m -> cell_op (when b m).
Proof.
  intros Hm. destruct b; [exact Hm | apply cell_op_ret].
Qed.

Lemma run_cell_when (b : bool) (m : M cell_st unit) (c : cell) :
  run_cell (when b m) c = if b then run_cell m c else c.
Proof. destruct b; reflexivity. Qed.

(** Styling never touches the value of a cell. *)
Lemma run_cell_applyCellStyle_value (style : value) (c : cell) :
  c_value (run_cell (applyCellStyle style) c) = c_value c.
Proof.
  unfold run_cell, applyCellStyle, try_catch.
  destruct (applyCellStyle_body_cases style (mkCellSt c []))
    as [(cs' & -> & _ & Hval & _) | (cs' & e & -> & _ & Hval & _)];
    exact Hval.
Qed.


Lemma cell_op_write_header (header : string) (style : value) :
  cell_op (write_header header style)
  /\ forall c, c_value (run_cell (write_header header style) c) = VStr header.
Proof.
  unfold write_header.
  set (k := if truthy (opt_prop style "header") then _ else _).
  assert (Hk : cell_op k /\ forall c, c_value (run_cell k c) = c_value c).
  { subst k. destruct (truthy (opt_prop style "header"));
      (split; [apply cell_op_applyCellStyle | apply run_cell_applyCellStyle_value]). }
  destruct Hk as [Hk Hval].
  destruct (cell_op_bind (on_target (set_value (VStr header))) k) as [Hop Hrun];
    [apply cell_op_on_target | exact Hk |].
  split; [exact Hop|]. intros c. rewrite Hrun, Hval. reflexivity.
Qed.

Lemma cell_op_write_body (v : value) (rowIndex : nat) (style : value) :
  cell_op (write_body v rowIndex style)
  /\ forall c,
       run_cell (write_body v rowIndex style) c
       = (let body := if truthy (opt_prop style "rows")
                      then run_cell (applyCellStyle (prop style "rows")) (set_value v c)
                      else set_value v c in
          if (Z.rem (Z.of_nat rowIndex) 2 =? 1) && truthy (opt_prop style "alternateRows")
          then run_cell (applyCellStyle (prop style "alternateRows")) body
          else body).
Proof.
  unfold write_body.
  set (rows := when (truthy (opt_prop style "rows")) _).
  set (alt := when (_ && _) _).
  assert (Hrows : cell_op rows) by apply cell_op_when, cell_op_applyCellStyle.
  assert (Halt : cell_op alt) by apply cell_op_when, cell_op_applyCellStyle.
  destruct (cell_op_bind rows alt Hrows Halt) as [Hop1 Hrun1].
  destruct (cell_op_bind (on_target (set_value v)) (bind rows (fun _ => alt))
              (cell_op_on_target _) Hop1) as [Hop Hrun].
  split; [exact Hop|]. intros c. rewrite Hrun, Hrun1.
  subst rows alt. rewrite !run_cell_when. reflexivity.
Qed.

(** *** Sheet-level loops *)

Lemma bind_ret_l {St A B : Type} (a : A) (k : A -> M St B) (s : St) :
  bind (ret a) k s = k a s.
Proof. reflexivity. Qed.

Lemma bind_assoc {St A B C : Type} (m : M St A) (k : A -> M St B) (h : B -> M St C) (s : St) :
  bind (bind m k) h s = bind m (fun a => bind (k a) h) s.
Proof.
  unfold bind. destruct (m s) as [s' [a|e]]; reflexivity.
Qed.

Lemma bind_ext {St A B : Type} (m : M St A) (k k' : A -> M St B) (s : St) :
  (forall a s', k a s' = k' a s') -> bind m k s = bind m k' s.
Proof.
  intros Hk. unfold bind. destruct (m s) as [s' [a|e]]; [apply Hk | reflexivity].
Qed.

Lemma forEach_from_Forall2 {St A : Type} (R : A -> A -> Prop)
    (body : A -> nat -> M St unit) (l l' : list A) :
  (forall x y k s, R x y -> body x k s = body y k s) ->
  Forall2 R l l' ->
  forall i s, forEach_from i l body s = forEach_from i l' body s.
Proof.
  intros Hbody Hall. induction Hall as [|x y l l' Hxy _ IH]; intros i s; [reflexivity|].
  simpl. unfold bind. rewrite (Hbody x y i s Hxy).
  destruct (body y i s) as [s' [[]|e]]; [apply IH | reflexivity].
Qed.


Lemma performs_with_cell (address : string) (m : M cell_st unit) :
  cell_op m -> performs (with_cell address m) [(address, run_cell m)].
Proof.
  intros Hm sh. unfold with_cell.
  destruct (Hm (getCell sh address) (sh_log sh)) as (w & ->).
  eexists. reflexivity.
Qed.

Lemma performs_ret : performs (ret tt) [].
Proof. intros [m t l]. eexists. reflexivity. Qed.

Lemma replay_app (ws ws' : list (string * (cell -> cell))) (m : gmap string cell) :
  replay (ws ++ ws') m = replay ws' (replay ws m).
Proof. apply fold_left_app. Qed.

Lemma performs_bind (m k : M sheet unit) (ws ws' : list (string * (cell -> cell))) :
  performs m ws -> performs k ws' -> performs (bind m (fun _ => k)) (ws ++ ws').
Proof.
  intros Hm Hk sh. unfold bind.
  destruct (Hm sh) as (log1 & ->).
  destruct (Hk (mkSheet (replay ws (cells sh)) (tables sh) log1)) as (log2 & ->).
  simpl. rewrite replay_app. eexists. reflexivity.
Qed.


Lemma performs_forEach_from {A : Type} (l : list A) :
  forall (i : nat) (body : A -> nat -> M sheet unit)
         (w : A -> nat -> list (string * (cell -> cell))),
    (forall k x, l !! k = Some x -> performs (body x (i + k)%nat) (w x (i + k)%nat)) ->
    performs (forEach_from i l body) (flat_from i l w).
Proof.
  induction l as [|x rest IH]; intros i body w Hbody; simpl.
  - apply performs_ret.
  - apply performs_bind.
    + specialize (Hbody 0%nat x eq_refl). rewrite Nat.add_0_r in Hbody. exact Hbody.
    + apply IH. intros k y Hk.
      specialize (Hbody (S k) y Hk).
      replace (S i + k)%nat with (i + S k)%nat by lia. exact Hbody.
Qed.

(** *** The list a loop collects *)

Lemma elem_of_flat_from {A B : Type} (l : list A) :
  forall (i : nat) (w : A -> nat -> list B) (b : B),
    b ∈ flat_from i l w <-> exists k x, l !! k = Some x /\ b ∈ w x (i + k)%nat.
Proof.
  induction l as [|x rest IH]; intros i w b; simpl.
  - split; [intros H; inversion H | intros (k & y & Hk & _); discriminate].
  - rewrite elem_of_app, IH. split.
    + intros [H | (k & y & Hk & H)].
      * exists 0%nat, x. rewrite Nat.add_0_r. auto.
      * exists (S k), y. replace (i + S k)%nat with (S i + k)%nat by lia. auto.
    + intros ([|k] & y & Hk & H).
      * left. injection Hk as <-. rewrite Nat.add_0_r in H. exact H.
      * right. exists k, y. replace (S i + k)%nat with (i + S k)%nat by lia. auto.
Qed.

Lemma NoDup_flat_from {A B : Type} (l : list A) :
  forall (i : nat) (w : A -> nat -> list B),
    (forall k x, l !! k = Some x -> NoDup (w x (i + k)%nat)) ->
    (forall k k' x x' b, l !! k = Some x -> l !! k' = Some x' ->
                         b ∈ w x (i + k)%nat -> b ∈ w x' (i + k')%nat -> k = k') ->
    NoDup (flat_from i l w).
Proof.
  induction l as [|x rest IH]; intros i w Hnd Hsep; simpl.
  - constructor.
  - apply NoDup_app. split; [|split].
    + specialize (Hnd 0%nat x eq_refl). rewrite Nat.add_0_r in Hnd. exact Hnd.
    + intros b Hb Hb'. apply elem_of_flat_from in Hb' as (k & y & Hk & Hy).
      assert (0 = S k)%nat; [|discriminate].
      apply (Hsep 0%nat (S k) x y b); auto.
      * rewrite Nat.add_0_r. exact Hb.
      * replace (i + S k)%nat with (S i + k)%nat by lia. exact Hy.
    + apply IH.
      * intros k y Hk. replace (S i + k)%nat with (i + S k)%nat by lia.
        apply Hnd. exact Hk.
      * intros k k' y y' b Hk Hk' Hb Hb'.
        assert (S k = S k'); [|lia].
        apply (Hsep (S k) (S k') y y' b); auto.
        -- replace (i + S k)%nat with (S i + k)%nat by lia. exact Hb.
        -- replace (i + S k')%nat with (S i + k')%nat by lia. exact Hb'.
Qed.

Lemma fmap_flat_from {A B C : Type} (f : B -> C) (l : list A) :
  forall (i : nat) (w : A -> nat -> list B),
    f <$> flat_from i l w = flat_from i l (fun x k => f <$> w x k).
Proof.
  induction l as [|x rest IH]; intros i w; simpl; [reflexivity|].
  rewrite fmap_app, IH. reflexivity.
Qed.

(** *** Replaying writes *)

Lemma replay_lookup_other (ws : list (string * (cell -> cell))) :
  forall (m : gmap string cell) (a : string),
    a ∉ ws.*1 -> replay ws m !! a = m !! a.
Proof.
  induction ws as [|[a' g] ws IH]; intros m a Hnotin; simpl; [reflexivity|].
  rewrite fmap_cons, not_elem_of_cons in Hnotin. destruct Hnotin as [Hne Hnotin].
  simpl in Hne.
  unfold replay in *. simpl. rewrite IH by exact Hnotin.
  apply lookup_insert_ne. congruence.
Qed.

Lemma replay_lookup_written (ws : list (string * (cell -> cell))) :
  forall (m : gmap string cell) (a : string) (g : cell -> cell),
    NoDup ws.*1 -> (a, g) ∈ ws ->
    replay ws m !! a = Some (g (default empty_cell (m !! a))).
Proof.
  induction ws as [|[a' g'] ws IH]; intros m a g Hnd Hin; [inversion Hin|].
  rewrite fmap_cons in Hnd. apply NoDup_cons in Hnd as [Hfresh Hnd].
  apply elem_of_cons in Hin as [Heq | Hin].
  - injection Heq as <- <-. unfold replay. simpl.
    fold (replay ws (<[a := g (default empty_cell (m !! a))]> m)).
    rewrite replay_lookup_other by exact Hfresh.
    apply lookup_insert_eq.
  - unfold replay. simpl.
    fold (replay ws (<[a' := g' (default empty_cell (m !! a'))]> m)).
    rewrite (IH _ a g Hnd Hin).
    assert (a <> a').
    { intros ->. apply Hfresh. apply (list_elem_of_fmap_2 fst) in Hin. exact Hin. }
    rewrite lookup_insert_ne by congruence. reflexivity.
Qed.

(** *** Anchors and addresses *)


Lemma first_run_head (p : ascii -> bool) (s run : string) :
  first_run p s = Some run -> exists c t, run = String c t /\ p c = true.
Proof.
  induction s as [|ch s IH]; simpl; [discriminate|].
  destruct (p ch) eqn:Hp.
  - destruct (span p s) as [w r]. simpl. intros [= <-]. eauto.
  - exact IH.
Qed.

(** Within one 26-letter span two produced addresses coincide only when
    their rows and offsets do. *)
Lemma getCellAddress_inj (c : ascii) (t : string) (r r' j j' : Z) :
  0 <= col_index c + j <= 25 -> 0 <= col_index c + j' <= 25 ->
  getCellAddress (String c t) r j = getCellAddress (String c t) r' j' ->
  r = r' /\ j = j'.
Proof.
  intros Hj Hj'. rewrite !getCellAddress_letter. intros [= Hl Hr].
  split; [apply (inj pretty); exact Hr|].
  apply (f_equal char_code) in Hl. rewrite !getCellAddress_code in Hl.
  rewrite !Z.rem_small in Hl by lia. lia.
Qed.

(** *** Range writer *)

Section RangeWriter.

Variables (startCol : string) (startRow : Z) (style : value).



End RangeWriter.





(** *** Table writer *)

Section TableWriter.

Variables (c : ascii) (letters : string) (startRow : Z) (style : value).
Variable headers : list string.
Variable rows : list (list (string * value)).

Hypothesis Hupper : is_upper c = true.
Hypothesis Hwidth : col_index c + Z.of_nat (length headers) <= 26.

Local Abbreviation startCol := (String c letters).

Lemma header_width (j : nat) (h : string) :
  headers !! j = Some h -> 0 <= col_index c + Z.of_nat j <= 25.
Proof.
  intros Hj. apply lookup_lt_Some in Hj. apply is_upper_spec in Hupper. lia.
Qed.

Lemma header_loop_performs :
  performs
    (forEach headers (fun header index =>
       with_cell (getCellAddress startCol startRow (Z.of_nat index))
                 (write_header header style)))
    (header_writes startCol startRow style headers).
Proof.
  unfold forEach, header_writes.
  apply performs_forEach_from. intros j h _. simpl.
  apply performs_with_cell, cell_op_write_header.
Qed.

Lemma body_loop_performs :
  performs
    (forEach (VObj <$> rows) (fun rowData rowIndex =>
       forEach headers (fun header colIndex =>
         bind (read rowData header) (fun v =>
           with_cell
             (getCellAddress startCol (startRow + Z.of_nat rowIndex + 1) (Z.of_nat colIndex))
             (write_body v rowIndex style)))))
    (body_writes startCol startRow style headers (VObj <$> rows)).
Proof.
  unfold forEach, body_writes.
  apply performs_forEach_from. intros i rowData Hi. simpl.
  apply list_lookup_fmap_Some in Hi as (row & -> & _).
  apply performs_forEach_from. intros j h _. simpl.
  intros sh. unfold read. simpl. rewrite bind_ret_l.
  apply performs_with_cell, cell_op_write_body.
Qed.

Lemma elem_of_header_writes (a : string) (g : cell -> cell) :
  (a, g) ∈ header_writes startCol startRow style headers <->
  exists j h, headers !! j = Some h
    /\ a = getCellAddress startCol startRow (Z.of_nat j)
    /\ g = run_cell (write_header h style).
Proof.
  unfold header_writes. rewrite elem_of_flat_from. split.
  - intros (j & h & Hj & Hin). simpl in Hin.
    apply list_elem_of_singleton in Hin as [= -> ->]. eauto.
  - intros (j & h & Hj & -> & ->). exists j, h. split; [exact Hj|].
    simpl. apply list_elem_of_singleton. reflexivity.
Qed.

Lemma elem_of_body_writes (a : string) (g : cell -> cell) :
  (a, g) ∈ body_writes startCol startRow style headers (VObj <$> rows) <->
  exists i row j h, rows !! i = Some row /\ headers !! j = Some h
    /\ a = getCellAddress startCol (startRow + Z.of_nat i + 1) (Z.of_nat j)
    /\ g = run_cell (write_body (prop (VObj row) h) i style).
Proof.
  unfold body_writes. rewrite elem_of_flat_from. split.
  - intros (i & rowData & Hi & Hin).
    apply list_lookup_fmap_Some in Hi as (row & -> & Hi). simpl in Hin.
    apply elem_of_flat_from in Hin as (j & h & Hj & Hin). simpl in Hin.
    apply list_elem_of_singleton in Hin as [= -> ->].
    exists i, row, j, h. auto.
  - intros (i & row & j & h & Hi & Hj & -> & ->).
    exists i, (VObj row). split; [rewrite list_lookup_fmap, Hi; reflexivity|].
    simpl. apply elem_of_flat_from. exists j, h. split; [exact Hj|].
    simpl. apply list_elem_of_singleton. reflexivity.
Qed.

Lemma NoDup_table_writes :
  NoDup (table_writes startCol startRow style headers (VObj <$> rows)).*1.
Proof.
  unfold table_writes. rewrite fmap_app. apply NoDup_app. split; [|split].
  - unfold header_writes. rewrite fmap_flat_from. apply NoDup_flat_from.
    + intros j h _. simpl. apply NoDup_singleton.
    + intros j j' h h' a Hj Hj' Ha Ha'. simpl in *.
      apply list_elem_of_singleton in Ha, Ha'. subst a.
      pose proof (header_width _ _ Hj). pose proof (header_width _ _ Hj').
      apply getCellAddress_inj in Ha' as [_ Heq]; lia.
  - intros a Ha Ha'.
    apply list_elem_of_fmap_1 in Ha as ([a1 g1] & -> & Ha).
    apply list_elem_of_fmap_1 in Ha' as ([a2 g2] & Heq & Ha'). simpl in Heq. subst a2.
    apply elem_of_header_writes in Ha as (j & h & Hj & -> & _).
    apply elem_of_body_writes in Ha' as (i & row & j' & h' & Hi & Hj' & Heq & _).
    pose proof (header_width _ _ Hj). pose proof (header_width _ _ Hj').
    apply getCellAddress_inj in Heq as [Heq _]; lia.
  - unfold body_writes. rewrite fmap_flat_from. apply NoDup_flat_from.
    + intros i rowData _. simpl. rewrite fmap_flat_from. apply NoDup_flat_from.
      * intros j h _. simpl. apply NoDup_singleton.
      * intros j j' h h' a Hj Hj' Ha Ha'. simpl in *.
        apply list_elem_of_singleton in Ha, Ha'. subst a.
        pose proof (header_width _ _ Hj). pose proof (header_width _ _ Hj').
        apply getCellAddress_inj in Ha' as [_ Heq]; lia.
    + intros i i' rowData rowData' a _ _ Ha Ha'.
      simpl in *. rewrite fmap_flat_from in Ha, Ha'.
      apply elem_of_flat_from in Ha as (j & h & Hj & Ha).
      apply elem_of_flat_from in Ha' as (j' & h' & Hj' & Ha').
      simpl in *. apply list_elem_of_singleton in Ha, Ha'. subst a.
      pose proof (header_width _ _ Hj). pose proof (header_width _ _ Hj').
      apply getCellAddress_inj in Ha' as [Heq _]; lia.
Qed.

End TableWriter.

Lemma mapM_read_headers {St : Type} (row : list (string * value)) (headers : list string)
    (s : St) :
  mapM (fun header => read (VObj row) header) headers s
  = (s, Normal (map (prop (VObj row)) headers)).
Proof.
  induction headers as [|h headers IH]; simpl; [reflexivity|].
  unfold bind at 1. unfold read at 1. simpl.
  unfold bind at 1. rewrite IH. reflexivity.
Qed.

Lemma mapM_read_rows {St : Type} (rows : list (list (string * value)))
    (headers : list string) (s : St) :
  mapM (fun row => mapM (fun header => read row header) headers) (VObj <$> rows) s
  = (s, Normal (map (fun row => map (prop (VObj row)) headers) rows)).
Proof.
  induction rows as [|row rows IH]; [reflexivity|].
  rewrite fmap_cons. cbn [mapM map].
  unfold bind at 1. rewrite mapM_read_headers.
  unfold bind at 1. rewrite IH. reflexivity.
Qed.


Lemma processTable_runs (name range style : value) (startCell digits : string)
    (c : ascii) (letters : string)
    (first : list (string * value)) (rest : list (list (string * value))) (sh : sheet) :
  anchored range startCell ->
  first_run is_digit startCell = Some digits ->
  first_run is_upper startCell = Some (String c letters) ->
  first <> [] \/ truthy name = false ->
  exists (log' : list string) (regs : list table_reg),
    processTable (mkTableDef name range (VArr (VObj <$> first :: rest)) style) sh
    = (mkSheet
         (replay (table_writes (String c letters) (digits_value digits) style
                    (map fst first) (VObj <$> first :: rest))
                 (cells sh))
         (tables sh ++ regs) log',
       Normal tt).
Proof.
  intros Hanchor Hdigits Hupper Hname.
  destruct (first_run_head _ _ _ Hupper) as (c' & t' & [= <- <-] & Hc).
  unfold processTable, try_catch.
  cbn [t_name t_range t_data t_style elements truthy negb is_array orb fmap list_fmap length Nat.eqb when].
  rewrite bind_ret_l.
  assert (Hstart : forall (k : string -> M sheet unit) s,
             bind (if truthy range
                   then match range with
                        | VStr range0 => ret (before_colon range0)
                        | _ => throw (TypeError "tableDef.range.split is not a function")
                        end
                   else ret "A1") k s = k startCell s).
  { intros k s. destruct Hanchor as [[-> ->] | (r & -> & Hr & ->)]; simpl.
    - reflexivity.
    - destruct r; [congruence|]. reflexivity. }
  rewrite Hstart. cbn [nth object_keys]. rewrite bind_ret_l.
  unfold match_first at 1 2. rewrite Hdigits, Hupper, !bind_ret_l.
  rewrite <- bind_assoc.
  change (VObj first :: (VObj <$> rest)) with (VObj <$> (first :: rest)).
  pose proof (performs_bind _ _ _ _
                (header_loop_performs c letters (digits_value digits) style (map fst first))
                (body_loop_performs c letters (digits_value digits) style (map fst first)
                   (first :: rest))) as Hloops.
  destruct (Hloops sh) as (log1 & Hrun).
  unfold bind at 1. rewrite Hrun. unfold table_writes.
  destruct (truthy name) eqn:Htruthy; cbn [when].
  - destruct Hname as [Hne | Hfalse]; [|discriminate].
    assert (Hlen : (0 < length (map fst first))%nat).
    { rewrite length_map. destruct first; [congruence | simpl; lia]. }
    destruct (getCellAddress_wraps c letters 1 (Z.of_nat (length (map fst first)) - 1))
      as (l & Haddr & Hl & _).
    { apply is_upper_spec in Hc. lia. }
    rewrite Haddr. unfold match_first.
    assert (Hrunl : first_run is_upper (String l (pretty 1)) = Some (String l EmptyString)).
    { cbn [first_run]. rewrite Hl, span_upper_address by exact Hl. reflexivity. }
    rewrite Hrunl, bind_ret_l.
    unfold bind at 1. rewrite mapM_read_rows.
    eexists _, [_]. reflexivity.
  - exists log1, []. rewrite app_nil_r. reflexivity.
Qed.



(** The cells [processTable] leaves behind, for a table whose columns fit
    in the letters up to Z: a header cell holds its key and the header
    style; a body cell holds the row's value under the key of its column,
    then the body sub-style and, in rows of odd index, the alternate-row
    sub-style applied over it. *)
Lemma processTable_cells (name range style : value) (startCell digits : string)
    (c : ascii) (letters : string)
    (first : list (string * value)) (rest : list (list (string * value))) (sh : sheet) :
  anchored range startCell ->
  first_run is_digit startCell = Some digits ->
  first_run is_upper startCell = Some (String c letters) ->
  col_index c + Z.of_nat (length first) <= 26 ->
  first <> [] \/ truthy name = false ->
  exists sh' : sheet,
    processTable (mkTableDef name range (VArr (VObj <$> first :: rest)) style) sh
    = (sh', Normal tt)
    /\ (forall j h,
          map fst first !! j = Some h ->
          getCell sh' (getCellAddress (String c letters) (digits_value digits) (Z.of_nat j))
          = run_cell (write_header h style)
              (getCell sh (getCellAddress (String c letters) (digits_value digits) (Z.of_nat j))))
    /\ (forall i row j h,
          (first :: rest) !! i = Some row -> map fst first !! j = Some h ->
          getCell sh' (getCellAddress (String c letters)
                         (digits_value digits + Z.of_nat i + 1) (Z.of_nat j))
          = run_cell (write_body (prop (VObj row) h) i style)
              (getCell sh (getCellAddress (String c letters)
                             (digits_value digits + Z.of_nat i + 1) (Z.of_nat j))))
    /\ (forall a,
          (forall j h, map fst first !! j = Some h ->
             a <> getCellAddress (String c letters) (digits_value digits) (Z.of_nat j)) ->
          (forall i row j h, (first :: rest) !! i = Some row -> map fst first !! j = Some h ->
             a <> getCellAddress (String c letters)
                    (digits_value digits + Z.of_nat i + 1) (Z.of_nat j)) ->
          getCell sh' a = getCell sh a).
Proof.
  intros Hanchor Hdigits Hupper Hwidth Hname.
  destruct (first_run_head _ _ _ Hupper) as (c' & t' & [= <- <-] & Hc).
  destruct (processTable_runs name range style startCell digits c letters first rest sh
              Hanchor Hdigits Hupper Hname) as (log' & regs & Hrun).
  assert (Hwidth' : col_index c + Z.of_nat (length (map fst first)) <= 26)
    by (rewrite length_map; exact Hwidth).
  pose proof (NoDup_table_writes c letters (digits_value digits) style (map fst first)
                (first :: rest) Hc Hwidth') as Hnd.
  eexists. split; [exact Hrun|]. split; [|split].
  - intros j h Hj. unfold getCell at 1. cbn [cells].
    rewrite (replay_lookup_written _ _ _ (run_cell (write_header h style)) Hnd);
      [reflexivity|].
    unfold table_writes. apply elem_of_app. left.
    apply elem_of_header_writes. eauto.
  - intros i row j h Hi Hj. unfold getCell at 1. cbn [cells].
    rewrite (replay_lookup_written _ _ _
               (run_cell (write_body (prop (VObj row) h) i style)) Hnd);
      [reflexivity|].
    unfold table_writes. apply elem_of_app. right.
    apply elem_of_body_writes. exists i, row, j, h. auto.
  - intros a Hheader Hbody. unfold getCell. cbn [cells].
    rewrite replay_lookup_other; [reflexivity|].
    intros Hin. apply list_elem_of_fmap_1 in Hin as ([a' g] & -> & Hin).
    unfold table_writes in Hin. apply elem_of_app in Hin as [Hin | Hin].
    + apply elem_of_header_writes in Hin as (j & h & Hj & -> & _).
      exact (Hheader j h Hj eq_refl).
    + apply elem_of_body_writes in Hin as (i & row & j & h & Hi & Hj & -> & _).
      exact (Hbody i row j h Hi Hj eq_refl).
Qed.




(** C5.  A table without a header sub-style: [processTable] applies
    [default_header_style], whose font color is the object
    [{ argb: 'FFFFFFFF' }]; [normalizeColor] throws on it, the exception is
    caught inside [applyCellStyle], and the header cell is left with its
    value and no font, no fill and no alignment, one warning being logged
    for it. *)
Theorem processTable_default_header_style_lost :
  let tableDef :=
    mkTableDef VUndef VUndef (VArr [VObj [("Product", VStr "Widget")]]) VUndef in
  let result := processTable tableDef (mkSheet ∅ [] []) in
  snd result = Normal tt
  /\ getCell (fst result) "A1" = mkCell (VStr "Product") VUndef VUndef VUndef VUndef VUndef
  /\ sh_log (fst result) = ["Style application failed: color.replace is not a function"]
  /\ font_of (prop default_header_style "font")
     = Threw (TypeError "color.replace is not a function").
Proof.
  vm_compute. repeat split; reflexivity.
Qed.

(** The same for every header cell of every table without a header
    sub-style, whatever the cell held before. *)
Lemma write_header_default_style (header : string) (style : value) (c : cell) :
  truthy (opt_prop style "header") = false ->
  run_cell (write_header header style) c = set_value (VStr header) c.
Proof.
  intros Hnone. unfold write_header. rewrite Hnone. reflexivity.
Qed.

(** ** Sheet formatting: properties *)

(** [maxLength] is the greatest [columnLength] of the cells of the column,
    and 0 for a sheet without rows. *)
Lemma maxLength_spec (rows : list (list value)) (c : nat) :
  (forall row, row ∈ rows -> columnLength (cell_of row c) <= maxLength rows c)
  /\ (maxLength rows c = 0
      \/ exists row, row ∈ rows /\ maxLength rows c = columnLength (cell_of row c)).
Proof.
  unfold maxLength.
  set (step := fun (m : Z) (row : list value) =>
                 if m <? columnLength (cell_of row c) then columnLength (cell_of row c) else m).
  assert (Hgen : forall rows m,
             m <= fold_left step rows m
             /\ (forall row, row ∈ rows -> columnLength (cell_of row c) <= fold_left step rows m)
             /\ (fold_left step rows m = m
                 \/ exists row, row ∈ rows
                      /\ fold_left step rows m = columnLength (cell_of row c))).
  { clear rows. induction rows as [|row rows IH]; intros m; simpl.
    - split; [lia|]. split; [intros row Hrow; inversion Hrow | left; reflexivity].
    - destruct (IH (step m row)) as (Hle & Hub & Hatt).
      assert (Hstep : m <= step m row /\ columnLength (cell_of row c) <= step m row
                      /\ (step m row = m \/ step m row = columnLength (cell_of row c))).
      { unfold step. destruct (Z.ltb_spec m (columnLength (cell_of row c))); lia. }
      destruct Hstep as (H1 & H2 & H3).
      split; [lia|]. split.
      + intros row' Hrow'. apply elem_of_cons in Hrow' as [-> | Hrow']; [lia | auto].
      + destruct Hatt as [Heq | (row' & Hrow' & Heq)].
        * rewrite Heq. destruct H3 as [-> | ->]; [left; reflexivity|].
          right. exists row. split; [apply list_elem_of_here | reflexivity].
        * right. exists row'. split; [apply list_elem_of_further, Hrow' | exact Heq]. }
  destruct (Hgen rows 0) as (_ & Hub & Hatt). split; [exact Hub | exact Hatt].
Qed.


Lemma set_width_run (rows : list (list value)) (cols : list value) (log : list string)
    (c : nat) (w : value) :
  set_width c w (mkWsheet rows (Some cols) log)
  = (mkWsheet rows (Some (<[c := w]> cols)) log, Normal tt).
Proof. reflexivity. Qed.

Lemma autoWidth_loop (rows : list (list value)) (log : list string) (cols : list value) :
  forall (done : list value),
    forEach_from (length done) cols
      (fun _ c => set_width c (VNum (Z.min (maxLength rows c + 2) 50)))
      (mkWsheet rows (Some (done ++ cols)) log)
    = (mkWsheet rows
         (Some (done ++ imap (fun k _ => VNum (Z.min (maxLength rows (length done + k) + 2) 50))
                             cols))
         log,
       Normal tt).
Proof.
  induction cols as [|w cols IH]; intros done; [reflexivity|].
  cbn [forEach_from]. unfold bind at 1. rewrite set_width_run.
  rewrite insert_app_r_alt by lia. rewrite Nat.sub_diag. cbn [insert list_insert].
  specialize (IH (done ++ [VNum (Z.min (maxLength rows (length done) + 2) 50)])).
  rewrite length_app in IH. cbn [length] in IH.
  replace (length done + 1)%nat with (S (length done)) in IH by lia.
  rewrite <- app_assoc in IH. cbn [app] in IH. rewrite IH.
  rewrite <- app_assoc. cbn [app imap]. rewrite Nat.add_0_r.
  match goal with
  | |- context [imap ?f cols] =>
      match goal with
      | |- context [imap ?g cols] =>
          lazymatch f with
          | g => fail
          | _ => assert (Himap : imap f cols = imap g cols)
          end
      end
  end.
  { apply imap_ext. intros k x _. cbn. rewrite ?Nat.add_succ_r. reflexivity. }
  rewrite Himap. reflexivity.
Qed.




(** ** Template filler: properties *)

(** *** Placeholders *)













(** *** Loops over rows and cells *)




Section ScalarFill.

Variable data : value.
Hypothesis Hdata : nullish data = false.







End ScalarFill.

(** *** Rows that a later step cannot reach *)

Lemma keeps_length {A : Type} (n : nat) (m : M wsheet A) (ws : wsheet) :
  keeps n m -> (n <= length (ws_rows ws))%nat -> (n <= length (ws_rows (fst (m ws))))%nat.
Proof.
  intros Hm Hn. specialize (Hm ws Hn).
  apply (f_equal length) in Hm. rewrite !length_take in Hm. lia.
Qed.




Lemma keeps_try_catch {A : Type} (n : nat) (m : M wsheet A) (h : exn -> M wsheet A) :
  keeps n m -> (forall e, keeps n (h e)) -> keeps n (try_catch m h).
Proof.
  intros Hm Hh ws Hn. unfold try_catch.
  pose proof (Hm ws Hn) as H1. pose proof (keeps_length n m ws Hm Hn) as Hlen.
  destruct (m ws) as [ws1 [a|e]]; cbn [fst] in *; [exact H1|].
  rewrite (Hh e ws1 Hlen). exact H1.
Qed.




Lemma keeps_warn_ws (n : nat) (line : string) : keeps n (warn_ws line).
Proof. intros ws _. reflexivity. Qed.













(** *** Repeating blocks *)


(** C2.  The example of the specification: one template row
    ["{{#items}}{{product}}: {{qty}}"] and two elements.  The first element
    fills the template row; for the second an empty row is inserted and
    the pass over it finds no cell, so the sheet ends with the rows
    ["A: 1"] and an empty row, and ["B: 2"] is never produced. *)
Theorem fillWorksheetTemplate_expansion_rows_empty :
  let data :=
    VObj [("items", VArr [VObj [("product", VStr "A"); ("qty", VNum 1)];
                          VObj [("product", VStr "B"); ("qty", VNum 2)]])] in
  fillWorksheetTemplate data
    (mkWsheet [[VStr "{{#items}}{{product}}: {{qty}}"]] None [])
  = (mkWsheet [[VStr "A: 1"]; []] None [], Normal tt).
Proof.
  vm_compute. reflexivity.
Qed.

(** ** Further properties of the address helper and the colour normalizer *)









(** *** The colour normalizer *)

Lemma map_ascii_String (f : ascii -> ascii) (c : ascii) (s : string) :
  map_ascii f (String c s) = String (f c) (map_ascii f s).
Proof. reflexivity. Qed.




Lemma upper_char_not_lower (c : ascii) :
  is_lower (if is_lower c then fromCharCode (char_code c - 32) else c) = false.
Proof.
  destruct (is_lower c) eqn:Hl; [|exact Hl].
  unfold is_lower in *. apply andb_true_iff in Hl as [H1 H2].
  apply Z.leb_le in H1, H2.
  rewrite char_code_fromCharCode by lia.
  apply andb_false_iff. left. apply Z.leb_gt. lia.
Qed.




Lemma toUpperCase_no_lower (s : string) :
  all_chars (fun c => negb (is_lower c)) (toUpperCase s) = true.
Proof.
  unfold toUpperCase, all_chars. induction s as [|c s IH]; [reflexivity|].
  rewrite map_ascii_String. cbn [list_ascii_of_string forallb].
  rewrite upper_char_not_lower. exact IH.
Qed.








(** X6.  Whatever colour string comes in, the normalized colour holds no
    lower case letter. *)
Theorem normalizeColor_upper_case (color : value) (r : string) :
  normalizeColor color = Normal r ->
  all_chars (fun c => negb (is_lower c)) r = true.
Proof.
  unfold normalizeColor. destruct (truthy color); cbn [negb].
  - destruct color; try discriminate. intros [= <-]. apply toUpperCase_no_lower.
  - intros [= <-]. reflexivity.
Qed.

Lemma normalizeColor_upper_case_witness :
  all_chars (fun c => negb (is_lower c)) "FFABCDEF" = true.
Proof.
  apply (normalizeColor_upper_case (VStr "#abcdef") "FFABCDEF"). reflexivity.
Defined.

(** ** Further properties of styles, data types and single cells *)

(** X7.  Applying a style is idempotent on the cell: a second application
    of the same style leaves the cell as the first one made it, also when
    the application fails half way. *)
Theorem applyCellStyle_idempotent (style : value) (c : cell) :
  run_cell (applyCellStyle style) (run_cell (applyCellStyle style) c)
  = run_cell (applyCellStyle style) c.
Proof.
  unfold run_cell, applyCellStyle, try_catch, applyCellStyle_body, read, bind, when,
    lift, on_target, modify, ret, throw, warn_cell.
  destruct (nullish style); [reflexivity|].
  destruct (truthy (prop style "font"));
    [destruct (font_of (prop style "font"))|]; try reflexivity.
  all: destruct (truthy (prop style "fill") || truthy (prop style "backgroundColor"));
    [destruct (fill_of style)|]; try reflexivity.
  all: destruct (truthy (prop style "alignment")), (truthy (prop style "border")),
         (truthy (prop style "numFmt")); reflexivity.
Qed.

(** *** Data types *)

(** What [applyCellDataType] does in each case: it ends normally, having
    at most assigned the number format; it logs a warning exactly when the
    data type is not a string. *)
Lemma applyCellDataType_cases (dataType format : value) (c : cell) :
  exists (nf : value) (w : list string),
    (if is_string dataType then w = [] else nf = c_numFmt c /\ exists line, w = [line])
    /\ forall log : list string,
         applyCellDataType dataType format (mkCellSt c log)
         = (mkCellSt (set_numFmt nf c) (log ++ w), Normal tt).
Proof.
  unfold applyCellDataType, try_catch, bind, ret, throw, on_target, modify, warn_cell.
  destruct c as [v fo fi al bo nf].
  destruct dataType as [| |b|n|s|items|fields]; cbn [is_string];
    try (exists nf; eexists; split; [split; [reflexivity | eexists; reflexivity]|];
         intros log; reflexivity).
  cbv beta iota.
  repeat match goal with
         | |- context [String.eqb ?a ?b] => destruct (String.eqb a b)
         end;
    eexists; exists []; (split; [reflexivity|]);
    intros log; rewrite app_nil_r; reflexivity.
Qed.



(** X8.  Setting a data type never throws and never touches anything but
    the number format of the cell: value, font, fill, alignment and border
    stay as they are.  A data type that is not a string costs one warning
    and changes nothing. *)
Theorem applyCellDataType_only_numFmt (dataType format : value) (cs : cell_st) :
  exists cs' : cell_st,
    applyCellDataType dataType format cs = (cs', Normal tt)
    /\ c_value (cs_cell cs') = c_value (cs_cell cs)
    /\ c_font (cs_cell cs') = c_font (cs_cell cs)
    /\ c_fill (cs_cell cs') = c_fill (cs_cell cs)
    /\ c_alignment (cs_cell cs') = c_alignment (cs_cell cs)
    /\ c_border (cs_cell cs') = c_border (cs_cell cs)
    /\ (if is_string dataType
        then cs_log cs' = cs_log cs
        else c_numFmt (cs_cell cs') = c_numFmt (cs_cell cs)
             /\ exists line, cs_log cs' = cs_log cs ++ [line]).
Proof.
  destruct cs as [c log].
  destruct (applyCellDataType_cases dataType format c) as (nf & w & Hw & Hrun).
  eexists. split; [apply Hrun|]. cbn.
  repeat (split; [reflexivity|]).
  destruct (is_string dataType).
  - subst w. apply app_nil_r.
  - destruct Hw as [-> [line ->]]. split; [reflexivity | by exists line].
Qed.






(** *** Single cells *)

Section ProcessCell.

Variable cellDef : cell_def.

Local Abbreviation set_or_formula :=
  (if truthy (cd_formula cellDef)
   then on_target (set_value (VObj [("formula", cd_formula cellDef);
                                    ("result", cd_value cellDef)]))
   else on_target (set_value (cd_value cellDef))).

Local Abbreviation styled :=
  (when (truthy (cd_style cellDef)) (applyCellStyle (cd_style cellDef))).

Local Abbreviation typed :=
  (when (truthy (cd_dataType cellDef))
     (applyCellDataType (cd_dataType cellDef) (cd_format cellDef))).



End ProcessCell.




(** X12.  A font colour that is not a string (the object form
    [{ argb: ... }], a number) makes the whole style a no-op: the cell is
    left exactly as it was, fill, alignment, border and number format of
    the style included, and one warning is logged. *)
Theorem applyCellStyle_rejects_color_object (style : value) (cs : cell_st) :
  truthy (prop style "font") = true ->
  truthy (prop (prop style "font") "color") = true ->
  is_string (prop (prop style "font") "color") = false ->
  applyCellStyle style cs
  = (mkCellSt (cs_cell cs)
       (cs_log cs ++ ["Style application failed: color.replace is not a function"]),
     Normal tt).
Proof.
  intros Hfont Hcolor Hstr.
  assert (Hstyle : nullish style = false) by (destruct style; try reflexivity; discriminate).
  unfold applyCellStyle, try_catch, applyCellStyle_body, read, bind, when, lift.
  rewrite Hstyle. unfold ret at 1. rewrite Hfont.
  assert (Hthrow : font_of (prop style "font")
                   = Threw (TypeError "color.replace is not a function")).
  { unfold font_of, normalizeColor. rewrite Hcolor. cbn [negb].
    destruct (prop (prop style "font") "color"); try discriminate; reflexivity. }
  rewrite Hthrow. destruct cs. reflexivity.
Qed.

Lemma applyCellStyle_rejects_color_object_witness :
  applyCellStyle
    (VObj [("font", VObj [("bold", VBool true); ("color", VObj [("argb", VStr "FFFF0000")])]);
           ("numFmt", VStr "0.00")])
    (mkCellSt empty_cell [])
  = (mkCellSt empty_cell ["Style application failed: color.replace is not a function"],
     Normal tt).
Proof.
  apply (applyCellStyle_rejects_color_object
           (VObj [("font", VObj [("bold", VBool true);
                                 ("color", VObj [("argb", VStr "FFFF0000")])]);
                  ("numFmt", VStr "0.00")])
           (mkCellSt empty_cell []));
    reflexivity.
Defined.

(** ** Further properties of the range and table writers *)

(** X13.  A table whose data is not a non-empty array is refused: the
    writer throws the processing error with status 422 and the sheet is
    left exactly as it was, whatever the name, the range and the style
    are. *)
Theorem processTable_requires_rows (tableDef : table_def) (sh : sheet) :
  (forall x rest, t_data tableDef <> VArr (x :: rest)) ->
  processTable tableDef sh
  = (sh, Threw (APIError
                  "Table processing failed: Table data is required and must be a non-empty array"
                  422)).
Proof.
  intros Hdata. unfold processTable, try_catch.
  destruct (t_data tableDef) as [| |b|n|s|items|fields] eqn:Hd;
    try reflexivity.
  - destruct b; reflexivity.
  - destruct (n =? 0) eqn:Hn; unfold bind, when; cbn; rewrite ?Hn; reflexivity.
  - destruct s; reflexivity.
  - destruct items as [|x rest]; [reflexivity|]. by destruct (Hdata x rest).
Qed.

Lemma processTable_requires_rows_witness :
  processTable (mkTableDef (VStr "Orders") (VStr "B2") (VArr []) VUndef) (mkSheet ∅ [] [])
  = (mkSheet ∅ [] [],
     Threw (APIError
              "Table processing failed: Table data is required and must be a non-empty array"
              422)).
Proof.
  apply (processTable_requires_rows (mkTableDef (VStr "Orders") (VStr "B2") (VArr []) VUndef)).
  intros x rest. discriminate.
Defined.



(** X15.  In the data of a range an element that is not an array writes
    nothing but still takes up its row: the range is written as if the
    element were an empty row. *)
Theorem processRange_skips_non_array_rows (range : string) (items : list value)
    (style : value) (sh : sheet) :
  processRange (mkRangeDef range (VArr items) style) sh
  = processRange
      (mkRangeDef range
         (VArr (map (fun rowData => if is_array rowData then rowData else VArr []) items))
         style) sh.
Proof.
  unfold processRange, try_catch.
  cbn [r_range r_data r_style truthy is_array andb when elements].
  match goal with
  | |- match ?m sh with _ => _ end = match ?m' sh with _ => _ end =>
      assert (Heq : m sh = m' sh); [|rewrite Heq; reflexivity]
  end.
  apply bind_ext. intros digits s1. apply bind_ext. intros startCol s2.
  unfold forEach.
  apply (forEach_from_Forall2
           (fun x y => y = if is_array x then x else VArr [])).
  - intros x y k s ->. destruct x; reflexivity.
  - clear. induction items as [|x items IH]; constructor; [reflexivity | exact IH].
Qed.

Section TableRegistration.

Variables (name range style : value) (startCell digits : string).
Variables (c : ascii) (letters : string).
Variables (first : list (string * value)) (rest : list (list (string * value))).
Hypothesis Hanchor : anchored range startCell.
Hypothesis Hdigits : first_run is_digit startCell = Some digits.
Hypothesis Hupper : first_run is_upper startCell = Some (String c letters).
Hypothesis Hfirst : first <> [].


End TableRegistration.



(** X17.  How the row styles of a table are layered.  In a table whose
    columns fit in the letters up to Z, the cell of column [j] in the data
    row of index [i] first receives the row's value under the key of the
    column, then the [rows] sub-style when there is one, and then, in the
    rows of odd index only (the second, the fourth, ...), the
    [alternateRows] sub-style on top of it. *)
Theorem processTable_row_styles (name range style : value) (startCell digits : string)
    (c : ascii) (letters : string)
    (first : list (string * value)) (rest : list (list (string * value))) (sh : sheet)
    (i j : nat) (row : list (string * value)) (h : string) :
  anchored range startCell ->
  first_run is_digit startCell = Some digits ->
  first_run is_upper startCell = Some (String c letters) ->
  col_index c + Z.of_nat (length first) <= 26 ->
  first <> [] ->
  (first :: rest) !! i = Some row ->
  map fst first !! j = Some h ->
  let address :=
    getCellAddress (String c letters) (digits_value digits + Z.of_nat i + 1) (Z.of_nat j) in
  let written := set_value (prop (VObj row) h) (getCell sh address) in
  let styled :=
    if truthy (opt_prop style "rows")
    then run_cell (applyCellStyle (prop style "rows")) written
    else written in
  getCell (fst (processTable
                  (mkTableDef name range (VArr (VObj <$> first :: rest)) style) sh))
          address
  = if (Z.rem (Z.of_nat i) 2 =? 1) && truthy (opt_prop style "alternateRows")
    then run_cell (applyCellStyle (prop style "alternateRows")) styled
    else styled.
Proof.
  intros Hanchor Hdigits Hupper Hwidth Hfirst Hi Hj address written styled.
  destruct (processTable_cells name range style startCell digits c letters first rest sh
              Hanchor Hdigits Hupper Hwidth (or_introl Hfirst))
    as (sh' & Hrun & _ & Hbody & _).
  rewrite Hrun. cbn [fst]. subst address written styled. cbv zeta.
  rewrite (Hbody i row j h Hi Hj).
  destruct (cell_op_write_body (prop (VObj row) h) i style) as [_ Hwb].
  rewrite Hwb. reflexivity.
Qed.

Lemma processTable_row_styles_witness :
  getCell (fst (processTable
                  (mkTableDef VUndef (VStr "B2")
                     (VArr (VObj <$> [("id", VNum 1)] :: [[("id", VNum 2)]]))
                     (VObj [("alternateRows", VObj [("numFmt", VStr "0.0")])]))
                  (mkSheet ∅ [] [])))
          (getCellAddress "B" (digits_value "2" + Z.of_nat 1 + 1) (Z.of_nat 0))
  = mkCell (VNum 2) VUndef VUndef VUndef VUndef (VStr "0.0").
Proof.
  pose proof (processTable_row_styles VUndef (VStr "B2")
                (VObj [("alternateRows", VObj [("numFmt", VStr "0.0")])]) "B2" "2" "B" ""
                [("id", VNum 1)] [[("id", VNum 2)]] (mkSheet ∅ [] []) 1 0
                [("id", VNum 2)] "id") as H.
  cbv zeta in H. rewrite H.
  - vm_compute. reflexivity.
  - right. exists "B2". split; [reflexivity|]. split; [discriminate | reflexivity].
  - reflexivity.
  - reflexivity.
  - vm_compute. discriminate.
  - discriminate.
  - reflexivity.
  - reflexivity.
Defined.

(** ** Further properties of sheet formatting *)

Lemma columnLength_nonneg (v : value) : 0 <= columnLength v.
Proof. unfold columnLength. destruct (truthy v); lia. Qed.

Lemma maxLength_nonneg (rows : list (list value)) (c : nat) : 0 <= maxLength rows c.
Proof.
  destruct (maxLength_spec rows c) as [_ [-> | (row & _ & ->)]];
    [lia | apply columnLength_nonneg].
Qed.

(** X18.  Sheet formatting is contained: whatever the formatting object
    and the sheet are, it ends normally, leaves every row as it is and
    logs at most one warning; either the column widths stay as they are or
    every column gets a width, and every width it sets lies between 2 and
    50. *)
Theorem applySheetFormatting_contained (formatting : value) (ws : wsheet) :
  exists ws' : wsheet,
    applySheetFormatting formatting ws = (ws', Normal tt)
    /\ ws_rows ws' = ws_rows ws
    /\ (ws_log ws' = ws_log ws \/ exists line, ws_log ws' = ws_log ws ++ [line])
    /\ (ws_columns ws' = ws_columns ws
        \/ exists (cols : list value) (widths : list Z),
             ws_columns ws = Some cols
             /\ ws_columns ws' = Some (VNum <$> widths)
             /\ length widths = length cols
             /\ Forall (fun w => 2 <= w <= 50) widths).
Proof.
  destruct ws as [rows cols log].
  unfold applySheetFormatting, try_catch, read.
  destruct (nullish formatting).
  { eexists. split; [reflexivity|]. cbn.
    split; [reflexivity|]. split; [right; eexists; reflexivity | left; reflexivity]. }
  rewrite bind_ret_l.
  destruct (truthy (prop formatting "autoWidth")); cbn [when].
  2: { eexists. split; [reflexivity|]. cbn. auto. }
  cbn [ws_columns ws_rows]. destruct cols as [cols|].
  - unfold forEach.
    pose proof (autoWidth_loop rows log cols []) as Hloop.
    cbn [length app Nat.add] in Hloop. rewrite Hloop.
    eexists. split; [reflexivity|]. cbn [ws_rows ws_log ws_columns].
    split; [reflexivity|]. split; [left; reflexivity|].
    right. exists cols, (imap (fun k _ => Z.min (maxLength rows k + 2) 50) cols).
    split; [reflexivity|]. split; [|split].
    + rewrite fmap_imap. reflexivity.
    + apply length_imap.
    + apply Forall_lookup. intros k w Hk.
      rewrite list_lookup_imap in Hk.
      destruct (cols !! k); [|discriminate]. injection Hk as <-.
      pose proof (maxLength_nonneg rows k). lia.
  - eexists. split; [reflexivity|]. cbn.
    split; [reflexivity|]. split; [right; eexists; reflexivity | left; reflexivity].
Qed.

(** X19.  Freezing [r] rows and [c] columns, with at most 25 columns and
    not both counts 0, puts the top left cell of the scrolling pane just
    behind the frozen area: in the column of index [c] (counted from 0 at
    ["A"]) and in row [r + 1]. *)
Theorem freeze_view_top_left (r c : Z) :
  0 <= r -> 0 <= c <= 25 -> 0 < r + c ->
  exists l : ascii,
    freeze_view r c
    = Some (VArr [VObj [("state", VStr "frozen"); ("xSplit", VNum c); ("ySplit", VNum r);
                        ("topLeftCell", VStr (String l (pretty (r + 1))))]])
    /\ is_upper l = true
    /\ col_index l = c.
Proof.
  intros Hr Hc Hpos.
  destruct (getCellAddress_wraps "A" EmptyString (r + 1) (c + 1 - 1)) as (l & Haddr & Hl & Hidx).
  { change (col_index "A") with 0. lia. }
  exists l. split; [|split; [exact Hl|]].
  - assert (Htruthy : truthy (js_or (VNum r) (VNum c)) = true).
    { unfold js_or. cbn [truthy].
      destruct (r =? 0) eqn:Hr0; cbn [negb truthy]; [|rewrite Hr0; reflexivity].
      apply Z.eqb_eq in Hr0.
      destruct (c =? 0) eqn:Hc0; [apply Z.eqb_eq in Hc0; lia | reflexivity]. }
    unfold freeze_view. rewrite Htruthy. cbv zeta. rewrite Haddr. reflexivity.
  - rewrite Hidx. change (col_index "A") with 0. rewrite Z.mod_small by lia. lia.
Qed.

Lemma freeze_view_top_left_witness :
  exists l : ascii,
    freeze_view 1 2
    = Some (VArr [VObj [("state", VStr "frozen"); ("xSplit", VNum 2); ("ySplit", VNum 1);
                        ("topLeftCell", VStr (String l (pretty (1 + 1))))]])
    /\ is_upper l = true
    /\ col_index l = 2.
Proof.
  apply (freeze_view_top_left 1 2); lia.
Defined.

(** ** Further properties of the template filler *)






(** X21.  A repeating block over an empty array leaves the sheet as it
    is: the cell with the marker keeps its text, the marker and its
    placeholders included, also those whose keys the data has. *)
Theorem fill_cell_empty_array (data : value) (k c : nat) (v : value) (key : string)
    (ws : wsheet) :
  nullish data = false ->
  truthy v && is_string v = true ->
  find_marker (replace_all (substitute data) (string_of v)) = Some key ->
  prop data key = VArr [] ->
  fill_cell data k v c ws = (ws, Normal tt).
Proof.
  intros Hdata Hstr Hmarker Hprop.
  unfold fill_cell. rewrite Hstr. cbn [when].
  unfold replace_placeholders. rewrite Hdata, bind_ret_l, Hmarker.
  unfold read. rewrite Hdata, bind_ret_l, Hprop. reflexivity.
Qed.

Lemma fill_cell_empty_array_witness :
  fill_cell (VObj [("items", VArr []); ("name", VStr "World")]) 0 (VStr "{{#items}}{{name}}") 0
    (mkWsheet [[VStr "{{#items}}{{name}}"]] None [])
  = (mkWsheet [[VStr "{{#items}}{{name}}"]] None [], Normal tt).
Proof.
  apply (fill_cell_empty_array (VObj [("items", VArr []); ("name", VStr "World")]) 0 0
           (VStr "{{#items}}{{name}}") "items");
    reflexivity.
Defined.

(** *** The pass over the row of an element *)







(** ** The error-handling middleware: properties *)

(** X23.  Outside development the response does not give the message of
    the error away: for an error that is not a validation error, it
    depends on the message only through whether the message mentions
    ["Excel"] or ["Database"], and not at all on the details or the stack
    of the error. *)
Theorem errorHandler_hides_message (now : string) (err err' : js_error) :
  is_str (err_name err) "ValidationError" = false ->
  err_name err' = err_name err ->
  err_code err' = err_code err ->
  err_statusCode err' = err_statusCode err ->
  includes "Excel" (err_message err') = includes "Excel" (err_message err) ->
  includes "Database" (err_message err') = includes "Database" (err_message err) ->
  errorHandler false now err' = errorHandler false now err.
Proof.
  intros Hnv Hname Hcode Hstatus Hexcel Hdb.
  unfold errorHandler. rewrite Hname, Hcode, Hstatus, Hexcel, Hdb, Hnv.
  reflexivity.
Qed.

Lemma errorHandler_hides_message_witness :
  errorHandler false "2024-01-01T00:00:00.000Z"
    (new_APIError "Query returned no results" (VNum 404) VUndef (VStr "at generateFromQuery"))
  = errorHandler false "2024-01-01T00:00:00.000Z"
      (new_APIError "Template not found" (VNum 404) VUndef VUndef).
Proof.
  apply errorHandler_hides_message; reflexivity.
Defined.

(** X24.  An [APIError] whose message mentions neither ["Excel"] nor
    ["Database"] is answered, outside development, with its own status
    code and the fixed message ["Internal Server Error"]: the message the
    error was made with is not sent. *)
Theorem errorHandler_APIError_generic (now message : string) (status : Z)
    (details stack : value) :
  includes "Excel" message = false ->
  includes "Database" message = false ->
  status <> 0 ->
  errorHandler false now (new_APIError message (VNum status) details stack)
  = mkResponse (VNum status)
      [("success", VBool false);
       ("message", VStr "Internal Server Error");
       ("timestamp", VStr now)].
Proof.
  intros Hexcel Hdb Hstatus. unfold errorHandler, new_APIError.
  cbn [err_name err_code err_message err_statusCode is_str String.eqb Ascii.eqb Bool.eqb].
  rewrite Hexcel, Hdb. cbn [prop assoc String.eqb Ascii.eqb Bool.eqb default js_or truthy].
  apply Z.eqb_neq in Hstatus. unfold js_or. cbn [truthy]. rewrite Hstatus. reflexivity.
Qed.

Lemma errorHandler_APIError_generic_witness :
  errorHandler false "2024-01-01T00:00:00.000Z"
    (new_APIError "Query returned no results" (VNum 404) VUndef VUndef)
  = mkResponse (VNum 404)
      [("success", VBool false);
       ("message", VStr "Internal Server Error");
       ("timestamp", VStr "2024-01-01T00:00:00.000Z")].
Proof.
  apply errorHandler_APIError_generic; [reflexivity | reflexivity | discriminate].
Defined.

(** X25.  An error whose message mentions ["Excel"] is answered with
    status 422 and the message ["Excel processing error"], whatever status
    code the error itself carries, unless its name or code selects one of
    the four cases tested before; the errors the workbook builder throws
    (["Excel generation failed: ..."]) are of this kind. *)
Theorem errorHandler_excel_is_422 (development : bool) (now : string) (err : js_error) :
  is_str (err_name err) "ValidationError" = false ->
  is_str (err_name err) "CastError" = false ->
  is_str (err_code err) "LIMIT_FILE_SIZE" = false ->
  is_str (err_code err) "ENOENT" = false ->
  includes "Excel" (err_message err) = true ->
  res_status (errorHandler development now err) = VNum 422
  /\ assoc "message" (res_body (errorHandler development now err))
     = Some (VStr "Excel processing error")
  /\ assoc "details" (res_body (errorHandler development now err))
     = Some (VStr (if development then err_message err else "Error processing Excel file")).
Proof.
  intros H1 H2 H3 H4 H5. unfold errorHandler. rewrite H1, H2, H3, H4, H5.
  destruct development; repeat split; reflexivity.
Qed.

Lemma errorHandler_excel_is_422_witness :
  res_status (errorHandler false "2024-01-01T00:00:00.000Z"
                (new_APIError ("Excel generation failed: " +:+ "Sheet processing failed: x")
                   (VNum 500) VUndef VUndef))
  = VNum 422.
Proof.
  apply (errorHandler_excel_is_422 false "2024-01-01T00:00:00.000Z"
           (new_APIError ("Excel generation failed: " +:+ "Sheet processing failed: x")
              (VNum 500) VUndef VUndef));
    reflexivity.
Defined.

(** ** Sheets: properties *)

Lemma forEach_from_app {St A : Type} (l l' : list A) (body : A -> nat -> M St unit) :
  forall (i : nat) (s : St),
    forEach_from i (l ++ l') body s
    = bind (forEach_from i l body) (fun _ => forEach_from (i + length l) l' body) s.
Proof.
  induction l as [|x l IH]; intros i s.
  - cbn [app forEach_from length]. rewrite bind_ret_l, Nat.add_0_r. reflexivity.
  - cbn [app forEach_from length]. rewrite bind_assoc. apply bind_ext. intros [] s'.
    rewrite IH. replace (S i + length l)%nat with (i + S (length l))%nat by lia.
    reflexivity.
Qed.

(** X26.  A table without rows aborts its sheet: the cells, the ranges and
    the tables before it stay written, the tables after it and the sheet
    formatting are not reached, and the error that comes out carries
    status 422 and names both the sheet and the table step. *)
Theorem processSheet_stops_at_empty_table (formatSheet : value -> M sheet unit)
    (sheetDef : sheet_def) (done todo : list table_def) (bad : table_def)
    (sh sh1 : sheet) :
  sd_tables sheetDef = done ++ bad :: todo ->
  (forall x rest, t_data bad <> VArr (x :: rest)) ->
  (forEach (sd_cells sheetDef) (fun cellDef _ => processCell cellDef) ;;
   forEach (sd_ranges sheetDef) (fun rangeDef _ => processRange rangeDef) ;;
   forEach done (fun tableDef _ => processTable tableDef))%M sh
  = (sh1, Normal tt) ->
  processSheet formatSheet sheetDef sh
  = (sh1,
     Threw (APIError
              ("Sheet processing failed: Table processing failed: "
               +:+ "Table data is required and must be a non-empty array")
              422)).
Proof.
  intros Htables Hbad Hrun.
  assert (Hfail : processTable bad sh1
                  = (sh1, Threw (APIError
                       "Table processing failed: Table data is required and must be a non-empty array"
                       422))).
  { unfold processTable, try_catch.
    destruct (t_data bad) as [| |b|n|s|items|fields] eqn:Hd; try reflexivity.
    - destruct b; reflexivity.
    - destruct (n =? 0) eqn:Hn; unfold bind, when; cbn; rewrite ?Hn; reflexivity.
    - destruct s; reflexivity.
    - destruct items as [|x rest]; [reflexivity|]. by destruct (Hbad x rest). }
  unfold processSheet, try_catch. rewrite Htables.
  unfold forEach in *. unfold bind in *.
  destruct (forEach_from 0 (sd_cells sheetDef) _ sh) as [s1 [[]|e1]]; [|discriminate].
  destruct (forEach_from 0 (sd_ranges sheetDef) _ s1) as [s2 [[]|e2]]; [|discriminate].
  rewrite forEach_from_app. unfold bind. rewrite Hrun.
  cbn [forEach_from]. unfold bind. rewrite Hfail. reflexivity.
Qed.

Lemma processSheet_stops_at_empty_table_witness :
  processSheet (fun _ => ret tt)
    (mkSheetDef [mkCellDef "A1" (VStr "Report") VUndef VUndef VUndef VUndef] []
       [mkTableDef (VStr "Orders") (VStr "A3") (VArr []) VUndef]
       (VObj [("autoWidth", VBool true)]))
    (mkSheet ∅ [] [])
  = (fst (processCell (mkCellDef "A1" (VStr "Report") VUndef VUndef VUndef VUndef)
            (mkSheet ∅ [] [])),
     Threw (APIError
              ("Sheet processing failed: Table processing failed: "
               +:+ "Table data is required and must be a non-empty array")
              422)).
Proof.
  apply (processSheet_stops_at_empty_table (fun _ => ret tt)
           (mkSheetDef [mkCellDef "A1" (VStr "Report") VUndef VUndef VUndef VUndef] []
              [mkTableDef (VStr "Orders") (VStr "A3") (VArr []) VUndef]
              (VObj [("autoWidth", VBool true)]))
           [] [] (mkTableDef (VStr "Orders") (VStr "A3") (VArr []) VUndef)).
  - reflexivity.
  - intros x rest. discriminate.
  - reflexivity.
Defined.
